(** * The FastAPI agent service (class-06 guardrails lab), embedded in Rocq

    Source: assignments/class-06-guardrails-lab/fastapi-agent-service/main.py

    The service keeps one piece of mutable state, the dictionary
    [app.state.active_tokens], and talks to four outside services: the
    Langfuse tracing client, the two Guardrails validators, the LangGraph
    agent and (through the agent's tool) Tavily.  The embedding threads the
    dictionary and a trace of the outside calls through a small state and
    exception monad; the outside services are the fields of a record
    [World], one value of which is the behaviour of the outside during one
    request.

    An outside call the source wraps in [try]/[except] is modelled with
    both outcomes (it returns, it raises); the calls it does not guard
    ([get_client], [auth_check], the span context manager, the
    constructors of [Guard] and [CallbackHandler]) are taken to return.

    Python strings are modelled by [string], a character standing for the
    code point of the same number: the model holds the strings whose code
    points are below 256, and [str.strip] and [str.lower] are written out
    as Python has them on that range (the whitespace of [strip] includes
    U+0085 and U+00A0; [lower] also maps the capital letters U+00C0 to
    U+00DE).  A string with a code point from 256 on is outside the
    model. *)

From Stdlib Require Import ZArith Ascii String List Bool.
From stdpp Require Import base option list strings gmap fin_maps.
Import ListNotations.

Local Open Scope string_scope.
Local Open Scope Z_scope.

(** ** Python strings *)

Module PyStr.

(** [not s] is false exactly for a non-empty string. *)
Definition truthy (s : string) : bool :=
  match s with
  | EmptyString => false
  | String _ _ => true
  end.

(** Truth value of [os.getenv(..)], which is [None] or a string. *)
Definition truthy_opt (o : option string) : bool :=
  match o with
  | None => false
  | Some s => truthy s
  end.

(** Whitespace of [str.strip()] among the code points below 256: tab,
    line feed, vertical tab, form feed, carriage return, the four
    separators 0x1c-0x1f, space, next line (U+0085) and no-break space
    (U+00A0). *)
Definition is_space (a : ascii) : bool :=
  let n := Z.of_nat (nat_of_ascii a) in
  ((9 <=? n) && (n <=? 13)) || ((28 <=? n) && (n <=? 32))
  || (n =? 133) || (n =? 160).

Fixpoint lstrip (s : string) : string :=
  match s with
  | EmptyString => EmptyString
  | String a s' => if is_space a then lstrip s' else s
  end.

Fixpoint rstrip (s : string) : string :=
  match s with
  | EmptyString => EmptyString
  | String a s' =>
      match rstrip s' with
      | EmptyString => if is_space a then EmptyString else String a EmptyString
      | r => String a r
      end
  end.

Definition strip (s : string) : string := rstrip (lstrip s).

(** [str.lower()] on one code point below 256: the capitals A-Z and
    U+00C0-U+00DE (the multiplication sign U+00D7 is no letter) move up by
    32; nothing else changes. *)
Definition lower_ascii (a : ascii) : ascii :=
  let n := nat_of_ascii a in
  if (((65 <=? Z.of_nat n) && (Z.of_nat n <=? 90))
      || ((192 <=? Z.of_nat n) && (Z.of_nat n <=? 222) && negb (Z.of_nat n =? 215)))%Z
  then ascii_of_nat (n + 32) else a.

Fixpoint lower (s : string) : string :=
  match s with
  | EmptyString => EmptyString
  | String a s' => String (lower_ascii a) (lower s')
  end.

(** [needle in hay] *)
Fixpoint contains (needle hay : string) : bool :=
  String.prefix needle hay ||
  match hay with
  | EmptyString => false
  | String _ hay' => contains needle hay'
  end.

(** [sep.join(chunks)] *)
Fixpoint join (sep : string) (chunks : list string) : string :=
  match chunks with
  | [] => EmptyString
  | [c] => c
  | c :: rest => c +:+ sep +:+ join sep rest
  end.

Definition blank (s : string) : Prop :=
  Forall (fun a => is_space a = true) (list_ascii_of_string s).

End PyStr.

(** ** Data models (the pydantic classes) *)

Record ChatRequest := {
  message : string;
  session_id : option string
}.

Record ChatResponse := {
  reply : string;
  source : string;
  monitored : bool;
  resp_session_id : string
}.

Record LoginRequest := {
  username : string;
  password : string
}.

Record LoginResponse := {
  login_message : string;
  token : string
}.

(** ** Exceptions *)

Inductive exn :=
| HTTPException (status_code : Z) (detail : string)
| ValidationError (model field : string).

(** The constructor [ChatResponse(...)]: pydantic checks the fields, and
    [session_id: str] refuses [None]. *)
Definition ChatResponse_new (r s : string) (m : bool) (sid : option string)
  : exn + ChatResponse :=
  match sid with
  | Some sid => inr {| reply := r; source := s; monitored := m; resp_session_id := sid |}
  | None => inl (ValidationError "ChatResponse" "session_id")
  end.

(** ** Configuration read from the environment at import time *)

Record Config := {
  OPENAI_API_KEY : option string;
  OPENAI_MODEL : string;
  AGENT_API_USERNAME : option string;
  AGENT_API_PASSWORD : option string;
  TAVILY_API_KEY : option string
}.

Definition getenv (environ : gmap string string) (k : string) : option string :=
  environ !! k.

Definition getenv_default (environ : gmap string string) (k d : string) : string :=
  default d (environ !! k).

Definition load_config (environ : gmap string string) : Config := {|
  OPENAI_API_KEY := getenv environ "OPENAI_API_KEY";
  OPENAI_MODEL := getenv_default environ "OPENAI_MODEL" "gpt-4o-mini";
  AGENT_API_USERNAME := getenv environ "AGENT_API_USERNAME";
  AGENT_API_PASSWORD := getenv environ "AGENT_API_PASSWORD";
  TAVILY_API_KEY := getenv environ "TAVILY_API_KEY"
|}.

(** ** The outside world *)

(** The two validators installed from the Guardrails hub. *)
Inductive guardrail := RestrictToTopic | ReadingTime.

(** [ChatOpenAI(model=.., temperature=.., api_key=..)] *)
Record LLM := {
  llm_model : string;
  llm_temperature : Z;
  llm_api_key : string
}.

(** What the [@tool] decorator makes of a function: a tool named after the
    function and described by its docstring. *)
Record Tool := {
  tool_name : string;
  tool_description : string
}.

(** The compiled graph returned by [create_react_agent(llm, tools)]. *)
Record AgentRunner := {
  runner_llm : LLM;
  runner_tools : list Tool
}.

(** The content of a LangChain message, as far as [_content_to_text]
    distinguishes it.  A dictionary carries [str(content["text"])] when it
    has the key, and its own [str()]. *)
Inductive item :=
| IDict (text : option string)
| IStr (s : string)
| IOther.

Inductive content :=
| CStr (s : string)
| CList (items : list item)
| CDict (text : option string) (repr : string)
| CNone
| COther (repr : string).

(** The last element of [result["messages"]] either has a [content]
    attribute or is taken as the content itself. *)
Inductive agent_message :=
| WithContent (c : content)
| Bare (c : content).

Inductive invoke_outcome :=
| InvokeRaised (exc : string)
| InvokeNotDict
| InvokeDict (messages : option (list agent_message)).

Record SearchItem := {
  item_title : option string;
  item_url : option string
}.

Inductive search_outcome :=
| SearchRaised (exc : string)
| SearchResults (results : option (list SearchItem)).

(** The names imported at the top of the module that the code tests for
    [None] or falsity before using them. *)
Record Imports := {
  has_tool : bool;
  has_create_react_agent : bool;
  has_ChatOpenAI : bool
}.

(** How the outside behaves while one call of the service runs. *)
Record World := {
  (** the value drawn by [uuid4()], printed *)
  uuid4 : string;
  (** [langfuse_client.auth_check()] *)
  auth_check : bool;
  (** whether [guard.validate(text)] returns ([true]) or raises *)
  guard_validate : guardrail -> string -> bool;
  (** [agent_runner.invoke({"messages": ..}, ..)] *)
  agent_invoke : AgentRunner -> list (string * string) -> invoke_outcome;
  (** [TavilyClient(..).search(query)] *)
  tavily_client_search : string -> search_outcome;
  (** whether [ChatOpenAI(..)] and [create_react_agent(..)] return or raise *)
  ChatOpenAI_ok : LLM -> bool;
  create_react_agent_ok : LLM -> list Tool -> bool
}.

(** ** Traces *)

Inductive event :=
| EvVerifyToken (x_auth_token : string)
| EvAuthCheck (ok : bool)
| EvGuard (g : guardrail) (text : string) (passed : bool)
| EvTraceInput (input : string) (sid : option string)
| EvAgentInvoke (runner : AgentRunner) (messages : list (string * string))
| EvTraceOutput (output : option string)
| EvCreateAgent (llm : LLM) (tools : list Tool)
| EvRespond (r : ChatResponse).

(** ** The state and exception monad *)

Record state := {
  active_tokens : gmap string string;
  trace : list event
}.

Definition M (A : Type) : Type := state -> (exn + A) * state.

Definition ret {A} (a : A) : M A := fun st => (inr a, st).

Definition raise {A} (e : exn) : M A := fun st => (inl e, st).

Definition bind {A B} (m : M A) (k : A -> M B) : M B :=
  fun st =>
    match m st with
    | (inl e, st') => (inl e, st')
    | (inr a, st') => k a st'
    end.

Declare Scope M_scope.
Delimit Scope M_scope with M.
Notation "x <- m ;; k" := (bind m (fun x => k))
  (at level 100, m at next level, right associativity) : M_scope.
Notation "m ;;; k" := (bind m (fun _ => k))
  (at level 100, right associativity) : M_scope.
Local Open Scope M_scope.

Definition emit (e : event) : M unit :=
  fun st => (inr tt, {| active_tokens := active_tokens st; trace := app (trace st) [e] |}).

Definition get_tokens : M (gmap string string) :=
  fun st => (inr (active_tokens st), st).

Definition set_token (k v : string) : M unit :=
  fun st => (inr tt, {| active_tokens := <[k := v]> (active_tokens st); trace := trace st |}).

Definition init_state : state := {| active_tokens := ∅; trace := [] |}.

(** ** The service *)

Definition nl : string := String (ascii_of_nat 10) EmptyString.

(** The no-break space U+00A0 and the next-line control U+0085. *)
Definition nbsp : string := String (ascii_of_nat 160) EmptyString.
Definition nel : string := String (ascii_of_nat 133) EmptyString.

Definition GUARDRAILS_ERROR : string := "GUARDRAILS ERROR".

(** What the two [apply_*_guardrail] functions return: the validation
    outcome object of [guard.validate], or a plain string. *)
Inductive guard_result :=
| ValidationOutcome (validated_output : string)
| PlainStr (s : string).

(** [result == "GUARDRAILS ERROR"]: an outcome object is never equal to a
    string. *)
Definition eq_str (r : guard_result) (s : string) : bool :=
  match r with
  | ValidationOutcome _ => false
  | PlainStr s' => String.eqb s' s
  end.

Definition TOPIC_REFUSAL : string :=
  "Sorry, I can only discuss topics related to Streamlit, " +:+
  "FastAPI, or general programming. Please adjust your question.".

Definition READING_TIME_REFUSAL : string :=
  "The generated answer would take longer than 15 seconds to read. " +:+
  "Please simplify or narrow down your question so I can provide a " +:+
  "concise and focused response.".

Definition SYSTEM_PROMPT : string :=
  nl +:+ "        You are a deployment assistant for Class 6 demos. " +:+
  nl +:+ "        Explain environment setup, FastAPI backend deployment, and Streamlit UI integration clearly. " +:+
  nl +:+ "        Use the Tavily search tool for recent context and cite sources when useful. " +:+
  nl +:+ "    ".

Definition build_offline_reply (message : string) : string :=
  let text := PyStr.lower message in
  if PyStr.contains "streamlit" text then
    "Streamlit reruns your script after every click. Keep anything you need in st.session_state."
  else if PyStr.contains "fastapi" text then
    "FastAPI ships with automatic docs at /docs. Try them once the server is running!"
  else if PyStr.contains "langfuse" text || PyStr.contains "monitor" text then
    "Langfuse links inputs and outputs. Set the keys to see traces pop up in the dashboard."
  else if PyStr.contains "deploy" text then
    "Deploy the API first, then point your Streamlit app to the live URL to share it."
  else
    "I am in offline mode. Ask about Streamlit, FastAPI, or Langfuse to see directed tips.".

Definition item_chunk (i : item) : option string :=
  match i with
  | IDict (Some t) => Some t
  | IDict None => None
  | IStr s => Some s
  | IOther => None
  end.

Definition _content_to_text (c : content) : option string :=
  match c with
  | CStr s => Some s
  | CList items =>
      match omap item_chunk items with
      | [] => None
      | chunks => Some (PyStr.strip (PyStr.join nl chunks))
      end
  | CDict (Some t) _ => Some t
  | CDict None repr => Some repr
  | CNone => None
  | COther repr => Some repr
  end.

Definition message_content (m : agent_message) : content :=
  match m with
  | WithContent c => c
  | Bare c => c
  end.

Definition create_token (uuid username : string) : string :=
  "token-" +:+ uuid +:+ "-" +:+ username.

Definition save_token (token username : string) : M unit :=
  set_token token username.

Definition verify_token (x_auth_token : string) : M string :=
  emit (EvVerifyToken x_auth_token) ;;;
  tokens <- get_tokens ;;
  match tokens !! x_auth_token with
  | Some username =>
      if PyStr.truthy username then ret username
      else raise (HTTPException 401 "Missing or invalid authentication token")
  | None => raise (HTTPException 401 "Missing or invalid authentication token")
  end.

Definition health : M (list (string * string)) := ret [("status", "ok")].

(** [return ChatResponse(...)] *)
Definition respond (r : exn + ChatResponse) : M ChatResponse :=
  match r with
  | inl e => raise e
  | inr resp => emit (EvRespond resp) ;;; ret resp
  end.

Section Service.

Variable cfg : Config.
Variable w : World.

(** *** Guardrails *)

Definition apply_guardrail (g : guardrail) (text : string) : M guard_result :=
  let ok := guard_validate w g text in
  emit (EvGuard g text ok) ;;;
  if ok then ret (ValidationOutcome text) else ret (PlainStr GUARDRAILS_ERROR).

Definition apply_reading_time_guardrail (response_text : string) : M guard_result :=
  apply_guardrail ReadingTime response_text.

Definition apply_topic_guardrail (prompt : string) : M guard_result :=
  apply_guardrail RestrictToTopic prompt.

(** *** Tools and the agent *)

Definition snippet (i : SearchItem) : string :=
  "- " +:+ default "" (item_title i) +:+ ": " +:+ default "" (item_url i).

Definition tavily_search (query : string) : string :=
  if negb (PyStr.truthy_opt (TAVILY_API_KEY cfg)) then "Tavily API key not configured."
  else
    match tavily_client_search w query with
    | SearchResults results =>
        let snippets := map snippet (take 3 (default [] results)) in
        "Tavily search results:" +:+ nl +:+ PyStr.join nl snippets
    | SearchRaised e => "Error calling Tavily: " +:+ e
    end.

Definition tavily_search_tool : Tool := {|
  tool_name := "tavily_search";
  tool_description := "Perform a web search using Tavily and summarize key sources."
|}.

Definition build_tools (imports : Imports) : list Tool :=
  if negb (has_tool imports) then []
  else [tavily_search_tool].

Definition build_agent_runner (imports : Imports) : M (option AgentRunner) :=
  if negb (PyStr.truthy_opt (OPENAI_API_KEY cfg)
           && has_create_react_agent imports && has_ChatOpenAI imports)
  then ret None
  else
    let tools := build_tools imports in
    match tools with
    | [] => ret None
    | _ =>
        let llm := {| llm_model := OPENAI_MODEL cfg;
                      llm_temperature := 0;
                      llm_api_key := default "" (OPENAI_API_KEY cfg) |} in
        if negb (ChatOpenAI_ok w llm) then ret None
        else
          emit (EvCreateAgent llm tools) ;;;
          if create_react_agent_ok w llm tools
          then ret (Some {| runner_llm := llm; runner_tools := tools |})
          else ret None
    end.

(** The module-level [agent_runner = build_agent_runner()]. *)
Variable agent_runner : option AgentRunner.

Definition run_agent (message : string) (system_prompt : option string)
  : M (option string) :=
  match agent_runner with
  | None => ret None
  | Some runner =>
      let messages :=
        app (if PyStr.truthy_opt system_prompt
             then [("system", default "" system_prompt)] else [])
            [("user", message)] in
      emit (EvAgentInvoke runner messages) ;;;
      match agent_invoke w runner messages with
      | InvokeRaised _ => ret None
      | InvokeNotDict => ret None
      | InvokeDict messages =>
          match last (default [] messages) with
          | None => ret None
          | Some last_message => ret (_content_to_text (message_content last_message))
          end
      end
  end.

Definition invoke_agent (message : string) (session_id : option string)
    (system_prompt : option string) : M (string * string) :=
  emit (EvTraceInput message session_id) ;;;
  agent_reply <- run_agent message system_prompt ;;
  emit (EvTraceOutput agent_reply) ;;;
  if PyStr.truthy_opt agent_reply
  then ret (default "" agent_reply, "langgraph:" +:+ OPENAI_MODEL cfg)
  else ret (build_offline_reply message, "rule-based").

(** *** Routes *)

Definition login (credentials : LoginRequest) : M LoginResponse :=
  if negb (PyStr.truthy_opt (AGENT_API_USERNAME cfg))
     || negb (PyStr.truthy_opt (AGENT_API_PASSWORD cfg))
  then raise (HTTPException 500 "Server credentials are not configured")
  else if negb (bool_decide (Some (username credentials) = AGENT_API_USERNAME cfg))
          || negb (bool_decide (Some (password credentials) = AGENT_API_PASSWORD cfg))
  then raise (HTTPException 401 "Invalid username or password")
  else
    let token := create_token (uuid4 w) (username credentials) in
    save_token token (username credentials) ;;;
    ret {| login_message := "Welcome back, " +:+ username credentials +:+ "!";
           token := token |}.

Definition chat (payload : ChatRequest) (username : string) : M ChatResponse :=
  let message := PyStr.strip (message payload) in
  if negb (PyStr.truthy message)
  then raise (HTTPException 400 "message cannot be empty")
  else
    let session_id := session_id payload in
    let monitored := auth_check w in
    emit (EvAuthCheck monitored) ;;;
    guard_topic_result <- apply_topic_guardrail message ;;
    if eq_str guard_topic_result GUARDRAILS_ERROR
    then respond (ChatResponse_new TOPIC_REFUSAL "guardrail:topic" false session_id)
    else
      rs <- invoke_agent message session_id (Some SYSTEM_PROMPT) ;;
      let reply := fst rs in
      let source := snd rs in
      guard_length_result <- apply_reading_time_guardrail reply ;;
      if eq_str guard_length_result GUARDRAILS_ERROR
      then respond (ChatResponse_new READING_TIME_REFUSAL "guardrail:reading_time"
                      monitored session_id)
      else respond (ChatResponse_new reply source monitored session_id).

(** [POST /chat]: FastAPI resolves [Depends(verify_token)] and then calls
    the handler. *)
Definition chat_endpoint (x_auth_token : string) (payload : ChatRequest)
  : M ChatResponse :=
  username <- verify_token x_auth_token ;;
  chat payload username.

End Service.

(** ** Requests and the service as a transition system *)

Inductive request :=
| ReqHealth
| ReqLogin (credentials : LoginRequest)
| ReqVerify (x_auth_token : string)
| ReqChat (x_auth_token : string) (payload : ChatRequest).

(** The state after serving one request; an exception leaves the state as
    it was when it was raised. *)
Definition serve (cfg : Config) (runner : option AgentRunner)
    (w : World) (r : request) (st : state) : state :=
  match r with
  | ReqHealth => snd (health st)
  | ReqLogin c => snd (login cfg w c st)
  | ReqVerify t => snd (verify_token t st)
  | ReqChat t p => snd (chat_endpoint cfg w runner t p st)
  end.

(** The process serves its requests one after the other, each in the
    world of its moment. *)
Fixpoint serve_all (cfg : Config) (runner : option AgentRunner)
    (reqs : list (World * request)) (st : state) : state :=
  match reqs with
  | [] => st
  | (w, r) :: rest => serve_all cfg runner rest (serve cfg runner w r st)
  end.

(** Every token of the dictionary was issued to the configured user. *)
Definition issued_to_user (cfg : Config) (tokens : gmap string string) : Prop :=
  forall t u, tokens !! t = Some u -> AGENT_API_USERNAME cfg = Some u.

(** ** Reading traces *)

Definition add_trace (st : state) (evs : list event) : state :=
  {| active_tokens := active_tokens st; trace := app (trace st) evs |}.

(** The events a run from [st] to [st'] appended. *)
Definition events_since (st st' : state) : list event :=
  drop (length (trace st)) (trace st').

Inductive stage :=
| Authenticate | ValidateTopic | CallAgent | ValidateReadingTime | Respond.

Definition stage_of (e : event) : option stage :=
  match e with
  | EvVerifyToken _ => Some Authenticate
  | EvGuard RestrictToTopic _ _ => Some ValidateTopic
  | EvTraceInput _ _ => Some CallAgent
  | EvGuard ReadingTime _ _ => Some ValidateReadingTime
  | EvRespond _ => Some Respond
  | EvAuthCheck _ | EvAgentInvoke _ _ | EvTraceOutput _ | EvCreateAgent _ _ => None
  end.

Definition stages (evs : list event) : list stage := omap stage_of evs.

Definition pipeline : list stage :=
  [Authenticate; ValidateTopic; CallAgent; ValidateReadingTime; Respond].

(** The content-policy checks of a trace: which validator, on which text. *)
Definition guard_of (e : event) : option (guardrail * string) :=
  match e with
  | EvGuard g text _ => Some (g, text)
  | _ => None
  end.

Definition checks (evs : list event) : list (guardrail * string) := omap guard_of evs.

Definition blocked_by (g : guardrail) (evs : list event) : Prop :=
  exists text, In (EvGuard g text false) evs.

Definition agent_called (e : event) : bool :=
  match e with
  | EvTraceInput _ _ | EvAgentInvoke _ _ | EvTraceOutput _ => true
  | _ => false
  end.

(** ** Sample data *)

Module Sample.

Definition cfg : Config := {|
  OPENAI_API_KEY := Some "sk-test";
  OPENAI_MODEL := "gpt-4o-mini";
  AGENT_API_USERNAME := Some "student";
  AGENT_API_PASSWORD := Some "secret";
  TAVILY_API_KEY := Some "tvly-test"
|}.

Definition imports : Imports :=
  {| has_tool := true; has_create_react_agent := true; has_ChatOpenAI := true |}.

Definition is_topic (g : guardrail) : bool :=
  match g with RestrictToTopic => true | ReadingTime => false end.

(** A world in which both validators pass, tracing is authenticated and
    the agent answers ["Use uvicorn."]. *)
Definition friendly : World := {|
  uuid4 := "1b4e28ba-2fa1-41d2-883f-0016d3cca427";
  auth_check := true;
  guard_validate := fun _ _ => true;
  agent_invoke := fun _ _ => InvokeDict (Some [WithContent (CStr "Use uvicorn.")]);
  tavily_client_search := fun _ => SearchResults (Some []);
  ChatOpenAI_ok := fun _ => true;
  create_react_agent_ok := fun _ _ => true
|}.

(** The same, but the topic validator raises on every prompt. *)
Definition off_topic : World := {|
  uuid4 := uuid4 friendly;
  auth_check := true;
  guard_validate := fun g _ => negb (is_topic g);
  agent_invoke := agent_invoke friendly;
  tavily_client_search := tavily_client_search friendly;
  ChatOpenAI_ok := ChatOpenAI_ok friendly;
  create_react_agent_ok := create_react_agent_ok friendly
|}.

(** The same, but the reading-time validator raises on every reply. *)
Definition long_winded : World := {|
  uuid4 := uuid4 friendly;
  auth_check := true;
  guard_validate := fun g _ => is_topic g;
  agent_invoke := agent_invoke friendly;
  tavily_client_search := tavily_client_search friendly;
  ChatOpenAI_ok := ChatOpenAI_ok friendly;
  create_react_agent_ok := create_react_agent_ok friendly
|}.

Definition runner : option AgentRunner :=
  Some {| runner_llm := {| llm_model := "gpt-4o-mini"; llm_temperature := 0;
                           llm_api_key := "sk-test" |};
          runner_tools := [tavily_search_tool] |}.

Definition the_token : string :=
  "token-1b4e28ba-2fa1-41d2-883f-0016d3cca427-student".

(** The state after [student] logged in once. *)
Definition logged_in : state :=
  {| active_tokens := {[ the_token := "student" ]}; trace := [] |}.

Definition ask (text : string) (sid : option string) : ChatRequest :=
  {| message := text; session_id := sid |}.

End Sample.

(** The canned text sent in place of a text that failed a validator. *)
Definition refusal (g : guardrail) : string :=
  match g with
  | RestrictToTopic => TOPIC_REFUSAL
  | ReadingTime => READING_TIME_REFUSAL
  end.

(** ** Runs *)

(** [runs m r evs]: from every state, [m] ends with [r], appends [evs] to
    the trace and leaves the dictionary alone. *)
Definition runs {A} (m : M A) (r : exn + A) (evs : list event) : Prop :=
  forall st, m st = (r, add_trace st evs).

Definition respond_trace (r : exn + ChatResponse) : list event :=
  match r with
  | inl _ => []
  | inr resp => [EvRespond resp]
  end.

(** The reply and source [invoke_agent] makes of what [run_agent] gave. *)
Definition answer_of (cfg : Config) (message : string) (o : option string)
  : string * string :=
  if PyStr.truthy_opt o
  then (default "" o, "langgraph:" +:+ OPENAI_MODEL cfg)
  else (build_offline_reply message, "rule-based").

(** The events of one [run_agent]: nothing without a runner, one
    invocation with one. *)
Definition invocation (runner : option AgentRunner) (inv : list event) : Prop :=
  match runner with
  | None => inv = []
  | Some r => exists msgs, inv = [EvAgentInvoke r msgs]
  end.

(** The five ways a call of [POST /chat] can go, with its result and the
    events it appends. *)
Inductive chat_run (cfg : Config) (w : World) (runner : option AgentRunner)
    (tok : string) (payload : ChatRequest) (tokens : gmap string string)
  : exn + ChatResponse -> list event -> Prop :=
| run_unauthenticated :
    (forall u, tokens !! tok = Some u -> PyStr.truthy u = false) ->
    chat_run cfg w runner tok payload tokens
      (inl (HTTPException 401 "Missing or invalid authentication token"))
      [EvVerifyToken tok]
| run_empty u :
    tokens !! tok = Some u -> PyStr.truthy u = true ->
    PyStr.strip (message payload) = EmptyString ->
    chat_run cfg w runner tok payload tokens
      (inl (HTTPException 400 "message cannot be empty"))
      [EvVerifyToken tok]
| run_topic_blocked u m res :
    tokens !! tok = Some u -> PyStr.truthy u = true ->
    m = PyStr.strip (message payload) -> PyStr.truthy m = true ->
    guard_validate w RestrictToTopic m = false ->
    res = ChatResponse_new TOPIC_REFUSAL "guardrail:topic" false (session_id payload) ->
    chat_run cfg w runner tok payload tokens res
      (app [EvVerifyToken tok; EvAuthCheck (auth_check w); EvGuard RestrictToTopic m false]
           (respond_trace res))
| run_reading_blocked u m o inv res :
    tokens !! tok = Some u -> PyStr.truthy u = true ->
    m = PyStr.strip (message payload) -> PyStr.truthy m = true ->
    guard_validate w RestrictToTopic m = true ->
    invocation runner inv ->
    runs (invoke_agent cfg w runner m (session_id payload) (Some SYSTEM_PROMPT))
         (inr (answer_of cfg m o))
         (app [EvTraceInput m (session_id payload)] (app inv [EvTraceOutput o])) ->
    guard_validate w ReadingTime (fst (answer_of cfg m o)) = false ->
    res = ChatResponse_new READING_TIME_REFUSAL "guardrail:reading_time"
            (auth_check w) (session_id payload) ->
    chat_run cfg w runner tok payload tokens res
      (app [EvVerifyToken tok; EvAuthCheck (auth_check w); EvGuard RestrictToTopic m true;
            EvTraceInput m (session_id payload)]
        (app inv
        (app [EvTraceOutput o; EvGuard ReadingTime (fst (answer_of cfg m o)) false]
             (respond_trace res))))
| run_answered u m o inv res :
    tokens !! tok = Some u -> PyStr.truthy u = true ->
    m = PyStr.strip (message payload) -> PyStr.truthy m = true ->
    guard_validate w RestrictToTopic m = true ->
    invocation runner inv ->
    runs (invoke_agent cfg w runner m (session_id payload) (Some SYSTEM_PROMPT))
         (inr (answer_of cfg m o))
         (app [EvTraceInput m (session_id payload)] (app inv [EvTraceOutput o])) ->
    guard_validate w ReadingTime (fst (answer_of cfg m o)) = true ->
    res = ChatResponse_new (fst (answer_of cfg m o)) (snd (answer_of cfg m o))
            (auth_check w) (session_id payload) ->
    chat_run cfg w runner tok payload tokens res
      (app [EvVerifyToken tok; EvAuthCheck (auth_check w); EvGuard RestrictToTopic m true;
            EvTraceInput m (session_id payload)]
        (app inv
        (app [EvTraceOutput o; EvGuard ReadingTime (fst (answer_of cfg m o)) true]
             (respond_trace res)))).

(** ** Further notions and sample data *)

(** The message list [run_agent] hands to the runner: the system prompt,
    when there is a non-empty one, and then the user's message. *)
Definition agent_messages (system_prompt : option string) (message : string)
  : list (string * string) :=
  app (if PyStr.truthy_opt system_prompt
       then [("system", default "" system_prompt)] else [])
      [("user", message)].

Module Scenario.

(** A world whose agent call raises. *)
Definition agent_down : World := {|
  uuid4 := "6fa459ea-ee8a-3ca4-894e-db77e160355e";
  auth_check := false;
  guard_validate := fun _ _ => true;
  agent_invoke := fun _ _ => InvokeRaised "timeout";
  tavily_client_search := fun _ => SearchRaised "timeout";
  ChatOpenAI_ok := fun _ => true;
  create_react_agent_ok := fun _ _ => true
|}.

(** A world whose agent returns a tool message followed by the answer, as
    a list of content parts. *)
Definition chatty : World := {|
  uuid4 := "6fa459ea-ee8a-3ca4-894e-db77e160355e";
  auth_check := true;
  guard_validate := fun _ _ => true;
  agent_invoke := fun _ _ =>
    InvokeDict (Some [Bare (CStr "searching");
                      WithContent (CList [IStr " Run "; IDict (Some "uvicorn main:app ")])]);
  tavily_client_search := fun _ =>
    SearchResults (Some [ {| item_title := Some "A"; item_url := Some "a.org" |};
                          {| item_title := None; item_url := Some "b.org" |};
                          {| item_title := Some "C"; item_url := None |};
                          {| item_title := Some "D"; item_url := Some "d.org" |} ]);
  ChatOpenAI_ok := fun _ => true;
  create_react_agent_ok := fun _ _ => true
|}.

(** The same world, the search returning the first three results only. *)
Definition chatty_three : World := {|
  uuid4 := uuid4 chatty;
  auth_check := true;
  guard_validate := guard_validate chatty;
  agent_invoke := agent_invoke chatty;
  tavily_client_search := fun _ =>
    SearchResults (Some [ {| item_title := Some "A"; item_url := Some "a.org" |};
                          {| item_title := None; item_url := Some "b.org" |};
                          {| item_title := Some "C"; item_url := None |} ]);
  ChatOpenAI_ok := fun _ => true;
  create_react_agent_ok := fun _ _ => true
|}.

(** A world whose agent answers with the empty string. *)
Definition silent : World := {|
  uuid4 := uuid4 chatty;
  auth_check := true;
  guard_validate := fun _ _ => true;
  agent_invoke := fun _ _ => InvokeDict (Some [WithContent (CStr EmptyString)]);
  tavily_client_search := fun _ => SearchResults None;
  ChatOpenAI_ok := fun _ => true;
  create_react_agent_ok := fun _ _ => true
|}.

Definition the_runner : AgentRunner :=
  {| runner_llm := {| llm_model := "gpt-4o-mini"; llm_temperature := 0;
                      llm_api_key := "sk-test" |};
     runner_tools := [tavily_search_tool] |}.

Definition student : LoginRequest := {| username := "student"; password := "secret" |}.

(** A morning of requests: a health probe, a login, a chat. *)
Definition morning : list (World * request) :=
  [ (Sample.friendly, ReqHealth);
    (Sample.friendly, ReqLogin student);
    (Sample.off_topic, ReqChat Sample.the_token (Sample.ask "Who won?" (Some "s1"))) ].

End Scenario.

(** * Properties *)

(** ** The monad *)

Lemma add_trace_nil st : add_trace st [] = st.
Proof. destruct st as [t l]. unfold add_trace. simpl. by rewrite app_nil_r. Qed.

Lemma add_trace_app st e1 e2 : add_trace (add_trace st e1) e2 = add_trace st (app e1 e2).
Proof. unfold add_trace. simpl. by rewrite app_assoc. Qed.

Lemma add_trace_tokens st evs : active_tokens (add_trace st evs) = active_tokens st.
Proof. reflexivity. Qed.

Lemma events_since_add_trace st evs : events_since st (add_trace st evs) = evs.
Proof. unfold events_since, add_trace. simpl. by rewrite drop_app_length. Qed.

Lemma runs_ret {A} (a : A) : runs (ret a) (inr a) [].
Proof. intros st. by rewrite add_trace_nil. Qed.

Lemma runs_raise {A} e : runs (@raise A e) (inl e) [].
Proof. intros st. by rewrite add_trace_nil. Qed.

Lemma runs_emit e : runs (emit e) (inr tt) [e].
Proof. intros st. reflexivity. Qed.

Lemma runs_bind {A B} (m : M A) (k : A -> M B) a e1 r e2 :
  runs m (inr a) e1 -> runs (k a) r e2 -> runs (bind m k) r (app e1 e2).
Proof.
  intros Hm Hk st. unfold bind. rewrite Hm, Hk. by rewrite add_trace_app.
Qed.

Lemma runs_bind_raise {A B} (m : M A) (k : A -> M B) e e1 :
  runs m (inl e) e1 -> runs (bind m k) (inl e) e1.
Proof. intros Hm st. unfold bind. by rewrite Hm. Qed.

Lemma runs_respond r : runs (respond r) r (respond_trace r).
Proof.
  destruct r as [e|resp]; simpl.
  - apply runs_raise.
  - apply (runs_bind _ _ tt [EvRespond resp] _ []); [apply runs_emit | apply runs_ret].
Qed.

(** ** How each function of the service runs *)

Section Runs.

Variable cfg : Config.
Variable w : World.
Variable runner : option AgentRunner.

Lemma runs_apply_guardrail g text :
  runs (apply_guardrail w g text)
       (inr (if guard_validate w g text
             then ValidationOutcome text else PlainStr GUARDRAILS_ERROR))
       [EvGuard g text (guard_validate w g text)].
Proof.
  unfold apply_guardrail.
  apply (runs_bind _ _ tt [_] _ []); [apply runs_emit |].
  destruct (guard_validate w g text); apply runs_ret.
Qed.

Lemma eq_str_guard g text :
  eq_str (if guard_validate w g text
          then ValidationOutcome text else PlainStr GUARDRAILS_ERROR)
         GUARDRAILS_ERROR
  = negb (guard_validate w g text).
Proof. by destruct (guard_validate w g text). Qed.

Lemma runs_run_agent message system_prompt :
  exists o inv,
    runs (run_agent w runner message system_prompt) (inr o) inv /\
    invocation runner inv.
Proof.
  unfold run_agent, invocation. destruct runner as [r|]; cbv zeta.
  - set (msgs := app _ [("user", message)]).
    assert (Hk : forall o, runs (ret (A := option string) o) (inr o) [])
      by (intros o; apply runs_ret).
    destruct (agent_invoke w r msgs) as [exc| |messages] eqn:Hinv.
    + exists None, [EvAgentInvoke r msgs]. split; [| by exists msgs].
      apply (runs_bind _ _ tt [_] _ []); [apply runs_emit |].
      apply Hk.
    + exists None, [EvAgentInvoke r msgs]. split; [| by exists msgs].
      apply (runs_bind _ _ tt [_] _ []); [apply runs_emit |].
      apply Hk.
    + destruct (last (default [] messages)) as [lm|] eqn:Hlast.
      * exists (_content_to_text (message_content lm)), [EvAgentInvoke r msgs].
        split; [| by exists msgs].
        apply (runs_bind _ _ tt [_] _ []); [apply runs_emit |].
        apply Hk.
      * exists None, [EvAgentInvoke r msgs]. split; [| by exists msgs].
        apply (runs_bind _ _ tt [_] _ []); [apply runs_emit |].
        apply Hk.
  - exists None, []. split; [apply runs_ret | reflexivity].
Qed.

Lemma runs_invoke_agent message sid system_prompt :
  exists o inv,
    runs (invoke_agent cfg w runner message sid system_prompt)
         (inr (answer_of cfg message o))
         (app [EvTraceInput message sid] (app inv [EvTraceOutput o])) /\
    invocation runner inv.
Proof.
  destruct (runs_run_agent message system_prompt) as (o & inv & Hrun & Hinv).
  exists o, inv. split; [| exact Hinv].
  unfold invoke_agent.
  apply (runs_bind _ _ tt); [apply runs_emit |].
  apply (runs_bind _ _ o); [exact Hrun |].
  apply (runs_bind _ _ tt [_] _ []); [apply runs_emit |].
  unfold answer_of. destruct (PyStr.truthy_opt o); apply runs_ret.
Qed.

Lemma verify_token_run tok st :
  verify_token tok st =
    (match active_tokens st !! tok with
     | Some u =>
         if PyStr.truthy u then inr u
         else inl (HTTPException 401 "Missing or invalid authentication token")
     | None => inl (HTTPException 401 "Missing or invalid authentication token")
     end,
     add_trace st [EvVerifyToken tok]).
Proof.
  unfold verify_token, bind, emit, get_tokens. simpl.
  destruct (active_tokens st !! tok) as [u|]; [destruct (PyStr.truthy u) |]; reflexivity.
Qed.

Lemma chat_empty payload u :
  PyStr.strip (message payload) = EmptyString ->
  runs (chat cfg w runner payload u)
       (inl (HTTPException 400 "message cannot be empty")) [].
Proof. intros H. unfold chat. rewrite H. simpl. apply runs_raise. Qed.

(** The handler proper, on a message that is not blank. *)
Lemma chat_body_run tok payload tokens u :
  tokens !! tok = Some u -> PyStr.truthy u = true ->
  PyStr.truthy (PyStr.strip (message payload)) = true ->
  exists r evs,
    runs (chat cfg w runner payload u) r evs /\
    chat_run cfg w runner tok payload tokens r (EvVerifyToken tok :: evs).
Proof.
  intros Htok Hu Hm. unfold chat. rewrite Hm. simpl negb. cbv iota zeta.
  set (m := PyStr.strip (message payload)) in *.
  pose proof (runs_apply_guardrail RestrictToTopic m) as Htopic.
  destruct (guard_validate w RestrictToTopic m) eqn:Ht.
  - destruct (runs_invoke_agent m (session_id payload) (Some SYSTEM_PROMPT))
      as (o & inv & Hagent & Hinv).
    pose proof (runs_apply_guardrail ReadingTime (fst (answer_of cfg m o))) as Hread.
    destruct (guard_validate w ReadingTime (fst (answer_of cfg m o))) eqn:Hr.
    + eexists _, _. split.
      * eapply runs_bind; [apply runs_emit |].
        eapply runs_bind; [exact Htopic |]. simpl eq_str. cbv iota.
        eapply runs_bind; [exact Hagent |].
        eapply runs_bind; [exact Hread |]. simpl eq_str. cbv iota.
        apply runs_respond.
      * simpl. rewrite <- !app_assoc. simpl.
        eapply (run_answered _ _ _ _ _ _ u m o inv); eauto.
    + eexists _, _. split.
      * eapply runs_bind; [apply runs_emit |].
        eapply runs_bind; [exact Htopic |]. simpl eq_str. cbv iota.
        eapply runs_bind; [exact Hagent |].
        eapply runs_bind; [exact Hread |]. simpl eq_str. cbv iota.
        apply runs_respond.
      * simpl. rewrite <- !app_assoc. simpl.
        eapply (run_reading_blocked _ _ _ _ _ _ u m o inv); eauto.
  - eexists _, _. split.
    + eapply runs_bind; [apply runs_emit |].
      eapply runs_bind; [exact Htopic |]. simpl eq_str. cbv iota.
      apply runs_respond.
    + simpl. eapply (run_topic_blocked _ _ _ _ _ _ u m); eauto.
Qed.

(** Every call of the endpoint goes one of the five ways. *)
Lemma chat_endpoint_run tok payload st :
  exists r evs,
    chat_endpoint cfg w runner tok payload st = (r, add_trace st evs) /\
    chat_run cfg w runner tok payload (active_tokens st) r evs.
Proof.
  unfold chat_endpoint, bind. rewrite verify_token_run.
  destruct (active_tokens st !! tok) as [u|] eqn:Htok.
  - destruct (PyStr.truthy u) eqn:Hu.
    + destruct (PyStr.truthy (PyStr.strip (message payload))) eqn:Hm.
      * destruct (chat_body_run tok payload (active_tokens st) u Htok Hu Hm)
          as (r & evs & Hrun & Hcase).
        exists r, (EvVerifyToken tok :: evs). split; [| exact Hcase].
        rewrite Hrun, add_trace_app. reflexivity.
      * assert (Hs : PyStr.strip (message payload) = EmptyString)
          by (destruct (PyStr.strip (message payload)); [done | discriminate]).
        eexists _, [EvVerifyToken tok]. split.
        -- rewrite (chat_empty payload u Hs), add_trace_nil. reflexivity.
        -- by apply (run_empty _ _ _ _ _ _ u).
    + eexists _, _. split; [reflexivity |].
      apply run_unauthenticated. intros u' Hu'. congruence.
  - eexists _, _. split; [reflexivity |].
    apply run_unauthenticated. intros u' Hu'. congruence.
Qed.

End Runs.

(** ** The embedding on sample inputs *)

Example strip_sample : PyStr.strip ("  How do I deploy? " +:+ nl) = "How do I deploy?".
Proof. reflexivity. Qed.

Example strip_no_break_space :
  PyStr.strip (nbsp +:+ "deploy" +:+ nel) = "deploy" /\ PyStr.strip (nbsp +:+ nel) = EmptyString.
Proof. split; reflexivity. Qed.

Example lower_latin_capitals :
  PyStr.lower (String (ascii_of_nat 201) "COLE " +:+ String (ascii_of_nat 215) EmptyString)
  = String (ascii_of_nat 233) "cole " +:+ String (ascii_of_nat 215) EmptyString.
Proof. reflexivity. Qed.

Example build_offline_reply_sample :
  build_offline_reply "How do I DEPLOY my FastAPI app?"
  = "FastAPI ships with automatic docs at /docs. Try them once the server is running!".
Proof. reflexivity. Qed.

Example content_to_text_sample :
  _content_to_text (CList [IDict (Some "one"); IOther; IStr " two "; IDict None])
  = Some ("one" +:+ nl +:+ " two").
Proof. reflexivity. Qed.

Example tavily_search_sample :
  tavily_search Sample.cfg Sample.friendly "rocq" = "Tavily search results:" +:+ nl.
Proof. reflexivity. Qed.

Example build_agent_runner_sample :
  fst (build_agent_runner Sample.cfg Sample.friendly Sample.imports init_state)
  = inr Sample.runner.
Proof. reflexivity. Qed.

Example login_sample :
  login Sample.cfg Sample.friendly {| username := "student"; password := "secret" |}
        init_state
  = (inr {| login_message := "Welcome back, student!"; token := Sample.the_token |},
     Sample.logged_in).
Proof. reflexivity. Qed.

Example login_wrong_password :
  fst (login Sample.cfg Sample.friendly {| username := "student"; password := "guess" |}
         init_state)
  = inl (HTTPException 401 "Invalid username or password").
Proof. reflexivity. Qed.

Example chat_sample :
  fst (chat_endpoint Sample.cfg Sample.friendly Sample.runner Sample.the_token
         (Sample.ask "  How do I deploy FastAPI? " (Some "s1")) Sample.logged_in)
  = inr {| reply := "Use uvicorn."; source := "langgraph:gpt-4o-mini";
           monitored := true; resp_session_id := "s1" |}.
Proof. reflexivity. Qed.

Example chat_unknown_token :
  fst (chat_endpoint Sample.cfg Sample.friendly Sample.runner "token-forged"
         (Sample.ask "How do I deploy FastAPI?" (Some "s1")) Sample.logged_in)
  = inl (HTTPException 401 "Missing or invalid authentication token").
Proof. reflexivity. Qed.

(** ** Proof steps shared by the claims *)

(** Split a call of the endpoint into its five ways; afterwards the events
    are an explicit list. *)
Ltac chat_ways cfg w runner tok payload st :=
  let r := fresh "r" in
  let evs := fresh "evs" in
  let Heq := fresh "Heq" in
  let Hway := fresh "Hway" in
  destruct (chat_endpoint_run cfg w runner tok payload st) as (r & evs & Heq & Hway);
  rewrite ?Heq in *; cbn [fst snd] in *;
  rewrite ?events_since_add_trace in *;
  inversion Hway; subst; clear Hway;
  try match goal with
    | H : invocation ?ar _ |- _ =>
        destruct ar; cbn [invocation] in H;
        [destruct H as [? ->] | subst]
    end;
  destruct (session_id payload) eqn:?;
  cbn [ChatResponse_new respond_trace app] in *.

(** Membership in an explicit list of events. *)
Ltac in_events :=
  repeat match goal with
    | H : blocked_by _ _ |- _ => destruct H as [? H]
    | H : In _ [] |- _ => destruct H
    | H : In _ (_ :: _) |- _ =>
        destruct H as [H|H];
        [simplify_eq |]
    end.

Ltac split_hyps :=
  repeat match goal with
    | H : _ /\ _ |- _ => destruct H
    | H : _ \/ _ |- _ => destruct H
    | H : ex _ |- _ => destruct H
    end.

(** ** The pipeline *)

(** C1. Every call of the chat endpoint runs the stages authenticate,
    validate topic, call agent, validate reading time, respond in that
    order: the stages of its trace are a prefix of the pipeline, or the
    pipeline cut short after a failed topic validation (five shapes in
    all, a run ending before [Respond] being one that raised).  The agent
    is not called (and nothing after it happens but the response) when the
    topic validation fails, and the reading-time validation is applied to
    the reply of the agent call, directly after that call has delivered
    it. *)
Theorem chat_pipeline_order cfg w runner tok payload st :
  let out := chat_endpoint cfg w runner tok payload st in
  let evs := events_since st (snd out) in
  let m := PyStr.strip (message payload) in
  (stages evs `prefix_of` pipeline \/
   stages evs = [Authenticate; ValidateTopic; Respond]) /\
  In (stages evs)
     [[Authenticate];
      [Authenticate; ValidateTopic];
      [Authenticate; ValidateTopic; Respond];
      [Authenticate; ValidateTopic; CallAgent; ValidateReadingTime];
      pipeline] /\
  head evs = Some (EvVerifyToken tok) /\
  (blocked_by RestrictToTopic evs ->
   Forall (fun e => agent_called e = false) evs /\
   forall text p, ~ In (EvGuard ReadingTime text p) evs) /\
  (forall e, In e evs -> agent_called e = true ->
   In (EvGuard RestrictToTopic m true) evs) /\
  (forall text p, In (EvGuard ReadingTime text p) evs ->
   exists pre o post,
     evs = app pre (EvTraceOutput o :: EvGuard ReadingTime text p :: post) /\
     text = fst (answer_of cfg m o) /\
     In (EvGuard RestrictToTopic m true) pre /\
     In (EvTraceInput m (session_id payload)) pre) /\
  (forall resp, fst out = inr resp ->
   last evs = Some (EvRespond resp) /\
   (stages evs = pipeline \/
    stages evs = [Authenticate; ValidateTopic; Respond] /\
    blocked_by RestrictToTopic evs)).
Proof.
  intros out evs m. subst out evs m.
  chat_ways cfg w runner tok payload st.
  all: split; [first [left; (by eexists) | right; reflexivity] |].
  all: split; [cbn; tauto |].
  all: split; [reflexivity |].
  all: split;
    [intros Hb; in_events; try congruence;
     (split; [repeat constructor | intros text p Hin; in_events]) |].
  all: split;
    [intros e Hin Hc; in_events; cbn in Hc; try discriminate Hc; cbn; tauto |].
  all: split;
    [intros text p Hin; in_events;
     first [eexists [_; _; _; _], _, _; split; [reflexivity |]
           | eexists [_; _; _; _; _], _, _; split; [reflexivity |]];
     cbn; tauto |].
  all: intros resp Hr; try discriminate Hr; inversion Hr; subst; clear Hr.
  all: split; [reflexivity |].
  all: first [left; reflexivity
             | right; split; [reflexivity | eexists; cbn; eauto]].
Qed.

(** ** The content-policy checks *)

(** C2, as the claim states it, fails: a request whose topic validation
    fails gets one content-policy check, not two. *)
Lemma two_checks_on_every_request_fails :
  let out := chat_endpoint Sample.cfg Sample.off_topic Sample.runner Sample.the_token
               (Sample.ask "Who won the match?" (Some "s1")) Sample.logged_in in
  let evs := events_since Sample.logged_in (snd out) in
  checks evs = [(RestrictToTopic, "Who won the match?")] /\
  length (checks evs) <> 2%nat.
Proof. vm_compute. split; [reflexivity | discriminate]. Qed.

(** An equivalence between facts the context decides. *)
Ltac settle :=
  split; intros; split_hyps;
  intuition (first [ discriminate | congruence | reflexivity | solve [eauto]
                   | exfalso; solve [eauto 6] | idtac ]).

Lemma verify_token_accepts tok st :
  (exists u, fst (verify_token tok st) = inr u) <->
  (exists u, active_tokens st !! tok = Some u /\ PyStr.truthy u = true).
Proof.
  rewrite verify_token_run. cbn [fst].
  destruct (active_tokens st !! tok) as [u|]; [destruct (PyStr.truthy u) eqn:Hu |].
  - split; intros _; eauto.
  - split; [intros [? [=]] | intros (u' & [= <-] & Hu'); congruence].
  - split; [intros [? [=]] | intros (u' & [=] & _)].
Qed.

(** C2, amended. A chat request gets at most two content-policy checks, in
    this order: the topic guardrail on the (stripped) incoming message and,
    only when that passed, the reading-time guardrail on the reply of the
    agent call.  Both are applied exactly on the requests that pass
    authentication, the emptiness test and the topic check; a request the
    topic guardrail blocks gets the topic check alone, a request refused
    with 401 (exactly the unauthenticated ones) or 400 (exactly the
    authenticated ones with a blank message) gets none.  No other
    validator is ever applied, and neither is applied to the other side:
    every check is the call of its validator in the world of the request,
    the topic check on the stripped message and the reading-time check on
    the reply [invoke_agent] returns for that message. *)
Theorem chat_content_policy_checks cfg w runner tok payload st :
  let out := chat_endpoint cfg w runner tok payload st in
  let evs := events_since st (snd out) in
  let m := PyStr.strip (message payload) in
  let authenticated := exists u, fst (verify_token tok st) = inr u in
  let passes := authenticated /\ PyStr.truthy m = true in
  ((checks evs = [] /\
    (fst out = inl (HTTPException 401 "Missing or invalid authentication token") \/
     fst out = inl (HTTPException 400 "message cannot be empty"))) \/
   (checks evs = [(RestrictToTopic, m)] /\
    In (EvGuard RestrictToTopic m false) evs) \/
   (exists o,
      checks evs = [(RestrictToTopic, m); (ReadingTime, fst (answer_of cfg m o))] /\
      In (EvGuard RestrictToTopic m true) evs /\
      In (EvTraceOutput o) evs)) /\
  (fst out = inl (HTTPException 401 "Missing or invalid authentication token")
   <-> ~ authenticated) /\
  (fst out = inl (HTTPException 400 "message cannot be empty")
   <-> authenticated /\ PyStr.truthy m = false) /\
  (checks evs = [] <-> ~ passes) /\
  (checks evs = [(RestrictToTopic, m)]
   <-> passes /\ guard_validate w RestrictToTopic m = false) /\
  ((exists text, checks evs = [(RestrictToTopic, m); (ReadingTime, text)])
   <-> passes /\ guard_validate w RestrictToTopic m = true) /\
  (forall g text p, In (EvGuard g text p) evs ->
     p = guard_validate w g text /\
     match g with
     | RestrictToTopic => text = m
     | ReadingTime =>
         exists src, forall st',
           fst (invoke_agent cfg w runner m (session_id payload) (Some SYSTEM_PROMPT) st')
           = inr (text, src)
     end).
Proof.
  intros out evs m authenticated passes. subst out evs m passes authenticated.
  rewrite !verify_token_accepts.
  chat_ways cfg w runner tok payload st.
  all: try match goal with
         | H : PyStr.strip _ = EmptyString |- _ => rewrite H in *
         end.
  all: match goal with
       | H : forall u, ?l = Some u -> PyStr.truthy u = false |- _ =>
           assert (Hauth : ~ exists u, l = Some u /\ PyStr.truthy u = true)
             by (intros (u' & Hl & Ht); rewrite (H u' Hl) in Ht; discriminate Ht)
       | H : ?l = Some ?u, Ht : PyStr.truthy ?u = true |- _ =>
           assert (Hauth : exists u', l = Some u' /\ PyStr.truthy u' = true)
             by (exists u; by split)
       end.
  all: split;
    [first
       [ left; split; [reflexivity | tauto]
       | right; left; split; [reflexivity | cbn; tauto]
       | right; right; eexists; split; [reflexivity | cbn; tauto] ] |].
  all: cbn [checks omap guard_of stages fst snd PyStr.truthy] in *.
  all: split; [settle |].
  all: split; [settle |].
  all: split; [settle |].
  all: split; [settle |].
  all: split; [settle |].
  all: intros g text p Hin; in_events; split; try congruence; try reflexivity.
  all: match goal with
       | Hr : runs (invoke_agent _ _ _ _ _ _) (inr (answer_of ?c ?m ?o)) _ |- _ =>
           exists (snd (answer_of c m o)); intros st'; rewrite Hr;
           cbn [fst]; by destruct (answer_of c m o)
       end.
Qed.

(** ** Refusals *)

(** C3, as the claim states it, fails: the topic guardrail failed on the
    message of a request without a session, and the endpoint returned no
    refusal but raised the validation error of [ChatResponse]. *)
Lemma refusal_without_session_fails :
  let out := chat_endpoint Sample.cfg Sample.off_topic Sample.runner Sample.the_token
               (Sample.ask "Who won the match?" None) Sample.logged_in in
  let evs := events_since Sample.logged_in (snd out) in
  In (EvGuard RestrictToTopic "Who won the match?" false) evs /\
  fst out = inl (ValidationError "ChatResponse" "session_id") /\
  (forall resp, fst out <> inr resp).
Proof.
  vm_compute. split; [tauto |]. split; [reflexivity | discriminate].
Qed.

(** C3, amended. A text that failed a validator is not shown: when the
    topic guardrail fails on the message, or the reading-time guardrail on
    the reply of the agent call, the handler answers with
    [ChatResponse(reply=<the canned refusal>, ...)], so that every response
    it returns carries the fixed refusal in its reply field, and it does
    return one whenever the request names a session; without a session
    the constructor raises and nothing is returned. *)
Theorem guardrail_failure_canned_refusal cfg w runner tok payload st g :
  let out := chat_endpoint cfg w runner tok payload st in
  let evs := events_since st (snd out) in
  blocked_by g evs ->
  (forall resp, fst out = inr resp -> reply resp = refusal g) /\
  (forall sid, session_id payload = Some sid ->
     exists resp, fst out = inr resp /\ reply resp = refusal g /\
                  resp_session_id resp = sid) /\
  (session_id payload = None ->
     fst out = inl (ValidationError "ChatResponse" "session_id")).
Proof.
  intros out evs Hb. subst out evs.
  chat_ways cfg w runner tok payload st.
  all: in_events.
  all: split; [intros resp Hr; simplify_eq; reflexivity |].
  all: split; [intros sid Hs; simplify_eq; eexists; repeat split |].
  all: intros Hs; simplify_eq; reflexivity.
Qed.

(** C3 at work: the reading-time validator refuses the agent's reply and
    the response carries the refusal. *)
Lemma guardrail_failure_canned_refusal_witness :
  let out := chat_endpoint Sample.cfg Sample.long_winded Sample.runner Sample.the_token
               (Sample.ask "How do I deploy FastAPI?" (Some "s1")) Sample.logged_in in
  blocked_by ReadingTime (events_since Sample.logged_in (snd out)) /\
  exists resp, fst out = inr resp /\ reply resp = READING_TIME_REFUSAL /\
               resp_session_id resp = "s1".
Proof.
  assert (Hb : blocked_by ReadingTime
                 (events_since Sample.logged_in
                    (snd (chat_endpoint Sample.cfg Sample.long_winded Sample.runner
                            Sample.the_token
                            (Sample.ask "How do I deploy FastAPI?" (Some "s1"))
                            Sample.logged_in)))).
  { exists "Use uvicorn.". vm_compute. tauto. }
  split; [exact Hb |].
  exact (proj1 (proj2 (guardrail_failure_canned_refusal
                         Sample.cfg Sample.long_winded Sample.runner Sample.the_token
                         (Sample.ask "How do I deploy FastAPI?" (Some "s1"))
                         Sample.logged_in ReadingTime Hb)) "s1" eq_refl).
Defined.

(** ** Provenance *)

(** C4, as the claim states it, fails: the hosted agent produced the
    non-empty reply ["Use uvicorn."], the reading-time guardrail blocked it,
    and the source of the response is ["guardrail:reading_time"]. *)
Lemma source_langgraph_iff_agent_replied_fails :
  let out := chat_endpoint Sample.cfg Sample.long_winded Sample.runner Sample.the_token
               (Sample.ask "How do I deploy FastAPI?" (Some "s1")) Sample.logged_in in
  let evs := events_since Sample.logged_in (snd out) in
  exists resp,
    fst out = inr resp /\
    In (EvTraceOutput (Some "Use uvicorn.")) evs /\
    source resp = "guardrail:reading_time" /\
    source resp <> "langgraph:" +:+ OPENAI_MODEL Sample.cfg.
Proof.
  vm_compute. eexists. split; [reflexivity |].
  split; [tauto |]. split; [reflexivity | discriminate].
Qed.

(** C4, amended. Every chat response names where its reply comes from:
    the source is ["langgraph:" + OPENAI_MODEL] exactly when the hosted
    agent produced a non-empty reply and the reading-time guardrail let it
    pass (the reply is then the agent's); it is ["rule-based"] exactly when
    the agent produced nothing or an empty reply and the reading-time
    guardrail let the offline reply pass (the reply is then
    [build_offline_reply] of the stripped message); it is
    ["guardrail:topic"], respectively ["guardrail:reading_time"], exactly
    when that guardrail blocked the request. *)
Theorem response_source_provenance cfg w runner tok payload st resp :
  let out := chat_endpoint cfg w runner tok payload st in
  let evs := events_since st (snd out) in
  let m := PyStr.strip (message payload) in
  fst out = inr resp ->
  (source resp = "langgraph:" +:+ OPENAI_MODEL cfg <->
   (exists o, In (EvTraceOutput (Some o)) evs /\ o <> EmptyString) /\
   ~ blocked_by ReadingTime evs) /\
  (source resp = "langgraph:" +:+ OPENAI_MODEL cfg ->
   In (EvTraceOutput (Some (reply resp))) evs) /\
  (source resp = "rule-based" <->
   (In (EvTraceOutput None) evs \/ In (EvTraceOutput (Some EmptyString)) evs) /\
   ~ blocked_by ReadingTime evs) /\
  (source resp = "rule-based" -> reply resp = build_offline_reply m) /\
  (source resp = "guardrail:topic" <-> blocked_by RestrictToTopic evs) /\
  (source resp = "guardrail:reading_time" <-> blocked_by ReadingTime evs).
Proof.
  intros out evs m Hr. subst out evs m.
  chat_ways cfg w runner tok payload st.
  all: simplify_eq; cbn [source reply].
  all: try match goal with
         | |- context [answer_of ?c ?m ?o] =>
             unfold answer_of in *; destruct o as [[|? ?]|]; cbn in *
         end.
  all: repeat split.
  all: try (intros; in_events; try discriminate; try reflexivity; cbn; tauto).
  all: try (intros [? ?]; in_events; discriminate).
  all: try (intros; (eexists; cbn; eauto 10) || (cbn; eauto 10)).
  all: intros; exfalso; split_hyps; in_events; try congruence.
  all: match goal with
       | H : ~ blocked_by _ _ |- _ => apply H; eexists; cbn; eauto 10
       end.
Qed.

(** C4 (amended) at work: without a runner the reply is the offline one. *)
Lemma response_source_provenance_witness :
  let out := chat_endpoint Sample.cfg Sample.friendly None Sample.the_token
               (Sample.ask " Can I monitor this? " (Some "s1")) Sample.logged_in in
  let resp := {| reply := build_offline_reply "Can I monitor this?";
                 source := "rule-based"; monitored := true;
                 resp_session_id := "s1" |} in
  fst out = inr resp /\
  (source resp = "rule-based" ->
   reply resp = build_offline_reply (PyStr.strip " Can I monitor this? ")).
Proof.
  split; [reflexivity |].
  exact (proj1 (proj2 (proj2 (proj2
           (response_source_provenance Sample.cfg Sample.friendly None Sample.the_token
              (Sample.ask " Can I monitor this? " (Some "s1")) Sample.logged_in
              _ eq_refl))))).
Defined.

(** ** The monitoring flag *)

(** C5, as the claim states it, fails: the Langfuse authentication check
    succeeded, the topic guardrail blocked the request, and the response
    says [monitored = false]. *)
Lemma monitored_iff_auth_check_fails :
  let out := chat_endpoint Sample.cfg Sample.off_topic Sample.runner Sample.the_token
               (Sample.ask "Who won the match?" (Some "s1")) Sample.logged_in in
  let evs := events_since Sample.logged_in (snd out) in
  exists resp,
    fst out = inr resp /\
    auth_check Sample.off_topic = true /\
    In (EvAuthCheck true) evs /\
    monitored resp = false.
Proof.
  vm_compute. eexists. split; [reflexivity |]. split; [reflexivity |].
  split; [tauto | reflexivity].
Qed.

(** C5, amended. In every chat response the monitored flag is true exactly
    when the Langfuse authentication check of that request succeeded and
    the topic guardrail did not block the request; the refusal sent for a
    blocked topic always says [monitored = false]. *)
Theorem response_monitored_flag cfg w runner tok payload st resp :
  let out := chat_endpoint cfg w runner tok payload st in
  let evs := events_since st (snd out) in
  fst out = inr resp ->
  In (EvAuthCheck (auth_check w)) evs /\
  (forall ok, In (EvAuthCheck ok) evs -> ok = auth_check w) /\
  (monitored resp = true <->
   auth_check w = true /\ ~ blocked_by RestrictToTopic evs) /\
  (blocked_by RestrictToTopic evs -> monitored resp = false) /\
  (~ blocked_by RestrictToTopic evs -> monitored resp = auth_check w).
Proof.
  intros out evs Hr. subst out evs.
  chat_ways cfg w runner tok payload st.
  all: simplify_eq; cbn [monitored].
  all: split; [cbn; tauto |].
  all: split; [intros ok Hin; in_events; reflexivity |].
  all: split;
    [split;
     [intros Hm; first [discriminate Hm | split; [exact Hm | intros Hb; in_events]]
     | intros [Ha Hnb];
       first [exact Ha | exfalso; apply Hnb; eexists; cbn; eauto 10]] |].
  all: split; [intros Hb; in_events; reflexivity |].
  all: intros Hnb; first [reflexivity | exfalso; apply Hnb; eexists; cbn; eauto 10].
Qed.

(** C5 (amended) at work on a request that passes both validators. *)
Lemma response_monitored_flag_witness :
  let out := chat_endpoint Sample.cfg Sample.friendly Sample.runner Sample.the_token
               (Sample.ask "  How do I deploy FastAPI? " (Some "s1")) Sample.logged_in in
  let resp := {| reply := "Use uvicorn."; source := "langgraph:gpt-4o-mini";
                 monitored := true; resp_session_id := "s1" |} in
  fst out = inr resp /\
  (monitored resp = true <->
   auth_check Sample.friendly = true /\
   ~ blocked_by RestrictToTopic (events_since Sample.logged_in (snd out))).
Proof.
  split; [reflexivity |].
  exact (proj1 (proj2 (proj2
           (response_monitored_flag Sample.cfg Sample.friendly Sample.runner
              Sample.the_token
              (Sample.ask "  How do I deploy FastAPI? " (Some "s1")) Sample.logged_in
              _ eq_refl)))).
Defined.

(** ** The token dictionary *)

Lemma login_run cfg w c st :
  login cfg w c st = (inl (HTTPException 500 "Server credentials are not configured"), st) \/
  login cfg w c st = (inl (HTTPException 401 "Invalid username or password"), st) \/
  PyStr.truthy_opt (AGENT_API_USERNAME cfg) = true /\
  AGENT_API_USERNAME cfg = Some (username c) /\
  AGENT_API_PASSWORD cfg = Some (password c) /\
  login cfg w c st =
    (inr {| login_message := "Welcome back, " +:+ username c +:+ "!";
            token := create_token (uuid4 w) (username c) |},
     {| active_tokens :=
          <[create_token (uuid4 w) (username c) := username c]> (active_tokens st);
        trace := trace st |}).
Proof.
  unfold login.
  destruct (PyStr.truthy_opt (AGENT_API_USERNAME cfg)) eqn:Hu; [| by left].
  destruct (PyStr.truthy_opt (AGENT_API_PASSWORD cfg)) eqn:Hp; [| by left].
  cbn [negb orb].
  case_bool_decide as Hcu; [| by right; left].
  case_bool_decide as Hcp; [| by right; left].
  right; right. cbn [negb orb]. by repeat split.
Qed.

Lemma chat_endpoint_tokens cfg w runner tok payload st :
  active_tokens (snd (chat_endpoint cfg w runner tok payload st)) = active_tokens st.
Proof.
  destruct (chat_endpoint_run cfg w runner tok payload st) as (r & evs & -> & _).
  reflexivity.
Qed.

Lemma verify_token_tokens tok st :
  active_tokens (snd (verify_token tok st)) = active_tokens st.
Proof. by rewrite verify_token_run. Qed.

Lemma login_tokens cfg w c st :
  active_tokens (snd (login cfg w c st)) = active_tokens st \/
  AGENT_API_USERNAME cfg = Some (username c) /\
  active_tokens (snd (login cfg w c st)) =
    <[create_token (uuid4 w) (username c) := username c]> (active_tokens st).
Proof.
  destruct (login_run cfg w c st) as [-> | [-> | (_ & Hu & _ & ->)]]; auto.
Qed.

Lemma serve_keeps cfg runner w r st :
  issued_to_user cfg (active_tokens st) ->
  active_tokens st ⊆ active_tokens (serve cfg runner w r st) /\
  issued_to_user cfg (active_tokens (serve cfg runner w r st)).
Proof.
  intros Hinv. destruct r as [|c|t|t p]; cbn [serve].
  - done.
  - destruct (login_tokens cfg w c st) as [-> | [Hu ->]]; [done |].
    split.
    + apply map_subseteq_spec. intros t u Ht.
      destruct (decide (create_token (uuid4 w) (username c) = t)) as [<- | Hne].
      * rewrite lookup_insert_eq. apply Hinv in Ht. congruence.
      * by rewrite lookup_insert_ne.
    + intros t u. rewrite lookup_insert. case_decide.
      * intros [= <-]. exact Hu.
      * apply Hinv.
  - by rewrite verify_token_tokens.
  - by rewrite chat_endpoint_tokens.
Qed.

Lemma serve_all_keeps cfg runner reqs st :
  issued_to_user cfg (active_tokens st) ->
  active_tokens st ⊆ active_tokens (serve_all cfg runner reqs st).
Proof.
  revert st. induction reqs as [| [w r] rest IH]; intros st Hinv; cbn [serve_all].
  - done.
  - destruct (serve_keeps cfg runner w r st Hinv) as [Hsub Hinv'].
    etrans; [exact Hsub | by apply IH].
Qed.

Lemma serve_all_issued cfg runner reqs st :
  issued_to_user cfg (active_tokens st) ->
  issued_to_user cfg (active_tokens (serve_all cfg runner reqs st)).
Proof.
  revert st. induction reqs as [| [w r] rest IH]; intros st Hinv; cbn [serve_all].
  - done.
  - apply IH. by apply serve_keeps.
Qed.

(** C6. The session state is the one dictionary from tokens to user names.
    A login leaves it alone or inserts one entry; health, token
    verification and chat leave it as it is; no request removes a key,
    from any state; and in a running process (started with the empty
    dictionary) every entry present at some moment, key and user name, is
    present at every later moment. *)
Theorem active_tokens_never_evicted cfg runner :
  (forall w c st,
     active_tokens (snd (login cfg w c st)) = active_tokens st \/
     exists tok, active_tokens (snd (login cfg w c st))
                 = <[tok := username c]> (active_tokens st)) /\
  (forall w st, active_tokens (serve cfg runner w ReqHealth st) = active_tokens st) /\
  (forall w t st, active_tokens (serve cfg runner w (ReqVerify t) st) = active_tokens st) /\
  (forall w t p st, active_tokens (serve cfg runner w (ReqChat t p) st) = active_tokens st) /\
  (forall w r st,
     dom (active_tokens st) ⊆@{gset string} dom (active_tokens (serve cfg runner w r st))) /\
  (forall reqs more,
     active_tokens (serve_all cfg runner reqs init_state)
     ⊆ active_tokens (serve_all cfg runner more (serve_all cfg runner reqs init_state))).
Proof.
  repeat apply conj.
  - intros w c st. destruct (login_tokens cfg w c st) as [H | [_ H]]; eauto.
  - reflexivity.
  - intros w t st. apply verify_token_tokens.
  - intros w t p st. apply chat_endpoint_tokens.
  - intros w r st. destruct r as [|c|t|t p]; cbn [serve].
    + done.
    + destruct (login_tokens cfg w c st) as [-> | [_ ->]]; [done |].
      apply dom_insert_subseteq.
    + by rewrite verify_token_tokens.
    + by rewrite chat_endpoint_tokens.
  - intros reqs more. apply serve_all_keeps, serve_all_issued.
    intros t u Ht. cbn in Ht. by rewrite lookup_empty in Ht.
Qed.

(** ** The agent's tools *)

(** C7. The agent has one tool, the Tavily search.  [build_tools] returns
    the list [[tavily_search]] (the decorator being imported) and
    [build_agent_runner] calls [create_react_agent] exactly when the OpenAI
    key is set, the imported names are there and [ChatOpenAI] returns: the
    tool list it hands over is then [[tavily_search]] and nothing else, and
    the runner it returns, when the constructor returns, is built from that
    list. *)
Theorem agent_has_only_tavily_tool cfg w imports st :
  let out := build_agent_runner cfg w imports st in
  let evs := events_since st (snd out) in
  let llm := {| llm_model := OPENAI_MODEL cfg; llm_temperature := 0;
                llm_api_key := default "" (OPENAI_API_KEY cfg) |} in
  let constructed :=
    PyStr.truthy_opt (OPENAI_API_KEY cfg) && has_create_react_agent imports
    && has_ChatOpenAI imports && has_tool imports && ChatOpenAI_ok w llm in
  (forall llm tools, In (EvCreateAgent llm tools) evs ->
     tools = [tavily_search_tool] /\ tool_name <$> tools = ["tavily_search"]) /\
  (forall r, fst out = inr (Some r) ->
     runner_tools r = [tavily_search_tool] /\
     evs = [EvCreateAgent (runner_llm r) [tavily_search_tool]]) /\
  (build_tools imports = [tavily_search_tool] \/ build_tools imports = []) /\
  build_tools imports = (if has_tool imports then [tavily_search_tool] else []) /\
  evs = (if constructed then [EvCreateAgent llm [tavily_search_tool]] else []) /\
  fst out = inr (if constructed && create_react_agent_ok w llm [tavily_search_tool]
                 then Some {| runner_llm := llm; runner_tools := [tavily_search_tool] |}
                 else None) /\
  tool_name tavily_search_tool = "tavily_search".
Proof.
  intros out evs llm constructed. subst out evs constructed.
  assert (Hnone : forall st', (ret (A := option AgentRunner) None st' = (inr None, add_trace st' [])))
    by (intros st'; unfold ret; by rewrite add_trace_nil).
  unfold build_agent_runner, build_tools. fold llm.
  destruct (PyStr.truthy_opt (OPENAI_API_KEY cfg)), (has_create_react_agent imports),
    (has_ChatOpenAI imports), (has_tool imports); cbn [negb andb];
    try (rewrite Hnone; cbn [fst snd]; rewrite events_since_add_trace;
         split; [intros ? ? [] |]; split; [intros r [=] |];
         split; [first [by left | by right] |]; by repeat split).
  destruct (ChatOpenAI_ok w llm); cbn [negb andb];
    [| rewrite Hnone; cbn [fst snd]; rewrite events_since_add_trace;
       split; [intros ? ? [] |]; split; [intros r [=] |];
       split; [by left |]; by repeat split].
  unfold bind, emit. cbn.
  destruct (create_react_agent_ok w llm [tavily_search_tool]); cbn;
    fold (add_trace st [EvCreateAgent llm [tavily_search_tool]]);
    rewrite events_since_add_trace.
  - split; [intros ? ? Hin; in_events; by split |].
    split; [intros r [= <-]; by split |]. split; [by left |]. by repeat split.
  - split; [intros ? ? Hin; in_events; by split |].
    split; [intros r [=] |]. split; [by left |]. by repeat split.
Qed.

(** ** Sessions *)

(** C8. The handler copies the session of the request into the response:
    a response is returned only for a request that names a session, and it
    names the same one; a request without a session that gets as far as
    building the response makes the constructor raise. *)
Theorem chat_needs_session_id cfg w runner tok payload st :
  let out := chat_endpoint cfg w runner tok payload st in
  (forall resp, fst out = inr resp ->
     session_id payload = Some (resp_session_id resp)) /\
  (session_id payload = None -> forall resp, fst out <> inr resp) /\
  (session_id payload = None ->
     fst out = inl (HTTPException 401 "Missing or invalid authentication token") \/
     fst out = inl (HTTPException 400 "message cannot be empty") \/
     fst out = inl (ValidationError "ChatResponse" "session_id")) /\
  (forall u, session_id payload = None ->
     active_tokens st !! tok = Some u -> PyStr.truthy u = true ->
     PyStr.truthy (PyStr.strip (message payload)) = true ->
     fst out = inl (ValidationError "ChatResponse" "session_id")).
Proof.
  intros out. subst out.
  chat_ways cfg w runner tok payload st.
  all: split; [intros resp Hr; simplify_eq; reflexivity |].
  all: split; [intros Hs resp Hr; simplify_eq |].
  all: split; [intros Hs; simplify_eq; tauto |].
  all: intros u' Hs Hu' Ht Hm; simplify_eq; try reflexivity.
  - match goal with H : forall u, _ -> PyStr.truthy u = false |- _ =>
      specialize (H _ Hu') end. congruence.
  - match goal with H : PyStr.strip _ = EmptyString |- _ => rewrite H in Hm end.
    discriminate Hm.
Qed.

(** ** Login and verification *)

(** C9. After a successful login, from any state of the dictionary, the
    token the login returned verifies, as the user who logged in. *)
Theorem login_verify_roundtrip cfg w c st resp st' :
  login cfg w c st = (inr resp, st') ->
  AGENT_API_USERNAME cfg = Some (username c) /\
  AGENT_API_PASSWORD cfg = Some (password c) /\
  token resp = create_token (uuid4 w) (username c) /\
  active_tokens st' !! token resp = Some (username c) /\
  verify_token (token resp) st'
    = (inr (username c), add_trace st' [EvVerifyToken (token resp)]).
Proof.
  intros Hlogin.
  destruct (login_run cfg w c st) as [H | [H | (Ht & Hu & Hp & H)]];
    rewrite H in Hlogin; simplify_eq.
  cbn [token active_tokens].
  repeat split; try done.
  - apply lookup_insert_eq.
  - rewrite verify_token_run. cbn [active_tokens].
    rewrite lookup_insert_eq. rewrite Hu in Ht. cbn in Ht. by rewrite Ht.
Qed.

(** C9 at work: [student] logs in and the token verifies. *)
Lemma login_verify_roundtrip_witness :
  let c := {| username := "student"; password := "secret" |} in
  let out := login Sample.cfg Sample.friendly c Sample.logged_in in
  let resp := {| login_message := "Welcome back, student!"; token := Sample.the_token |} in
  out = (inr resp, snd out) /\
  fst (verify_token (token resp) (snd out)) = inr "student".
Proof.
  split; [reflexivity |].
  exact (f_equal fst
           (proj2 (proj2 (proj2 (proj2
              (login_verify_roundtrip Sample.cfg Sample.friendly
                 {| username := "student"; password := "secret" |}
                 Sample.logged_in _ _ eq_refl)))))).
Defined.

(** ** Blank messages *)

Lemma blank_cons a s :
  PyStr.blank (String a s) <-> PyStr.is_space a = true /\ PyStr.blank s.
Proof.
  unfold PyStr.blank. cbn. split.
  - intros H. inversion H; subst. by split.
  - intros [Ha Hs]. by constructor.
Qed.

Lemma lstrip_blank s : PyStr.blank s -> PyStr.lstrip s = EmptyString.
Proof.
  induction s as [| a s IH]; [done |].
  intros [Ha Hs]%blank_cons. cbn. rewrite Ha. by apply IH.
Qed.

Lemma lstrip_head s a t :
  PyStr.lstrip s = String a t -> PyStr.is_space a = false.
Proof.
  induction s as [| b s IH]; [done |]. cbn.
  destruct (PyStr.is_space b) eqn:Hb; [exact IH |].
  intros [= <- _]. exact Hb.
Qed.

Lemma lstrip_empty_blank s : PyStr.lstrip s = EmptyString -> PyStr.blank s.
Proof.
  induction s as [| a s IH]; [intros _; by constructor |]. cbn.
  destruct (PyStr.is_space a) eqn:Ha; [| done].
  intros Hs. apply blank_cons. auto.
Qed.

Lemma rstrip_head a t :
  PyStr.is_space a = false -> PyStr.rstrip (String a t) <> EmptyString.
Proof. intros Ha. cbn. rewrite Ha. by destruct (PyStr.rstrip t). Qed.

(** [strip] leaves nothing exactly of the strings made of whitespace only
    (the empty one among them). *)
Lemma strip_empty_iff s : PyStr.strip s = EmptyString <-> PyStr.blank s.
Proof.
  unfold PyStr.strip. split.
  - intros Hs. apply lstrip_empty_blank.
    destruct (PyStr.lstrip s) as [| a t] eqn:Hl; [done |].
    by apply rstrip_head in Hs; [| eapply lstrip_head].
  - intros Hb. by rewrite lstrip_blank.
Qed.

(** C10. An authenticated chat request whose message is empty or all
    whitespace (every character one that [str.strip()] removes, U+0085
    and U+00A0 among them) is refused with HTTP 400, detail ["message
    cannot be empty"]: nothing but the token verification has happened by
    then (no validator, no agent call, no response), and the dictionary is
    as before. *)
Theorem chat_blank_message_rejected cfg w runner tok payload st u :
  fst (verify_token tok st) = inr u ->
  PyStr.blank (message payload) ->
  let out := chat_endpoint cfg w runner tok payload st in
  let evs := events_since st (snd out) in
  fst out = inl (HTTPException 400 "message cannot be empty") /\
  evs = [EvVerifyToken tok] /\
  checks evs = [] /\
  Forall (fun e => agent_called e = false) evs /\
  active_tokens (snd out) = active_tokens st.
Proof.
  intros Hauth Hblank out evs. subst out evs.
  apply strip_empty_iff in Hblank.
  rewrite verify_token_run in Hauth. cbn [fst] in Hauth.
  unfold chat_endpoint, bind. rewrite verify_token_run.
  destruct (active_tokens st !! tok) as [u'|]; [| discriminate Hauth].
  destruct (PyStr.truthy u'); [| discriminate Hauth].
  rewrite (chat_empty cfg w runner payload u' Hblank), add_trace_nil.
  cbn [fst snd]. rewrite events_since_add_trace.
  repeat split. repeat constructor.
Qed.

(** C10 at work on a message of a blank, a no-break space, a line feed, a
    next-line control and a tab. *)
Lemma chat_blank_message_rejected_witness :
  let text := " " +:+ nbsp +:+ nl +:+ nel +:+ String (ascii_of_nat 9) EmptyString in
  let payload := Sample.ask text (Some "s1") in
  let out := chat_endpoint Sample.cfg Sample.friendly Sample.runner Sample.the_token
               payload Sample.logged_in in
  fst (verify_token Sample.the_token Sample.logged_in) = inr "student" /\
  PyStr.blank (message payload) /\
  fst out = inl (HTTPException 400 "message cannot be empty").
Proof.
  assert (Hb : PyStr.blank
                 (message (Sample.ask
                             (" " +:+ nbsp +:+ nl +:+ nel
                              +:+ String (ascii_of_nat 9) EmptyString)
                             (Some "s1"))))
    by (vm_compute; repeat constructor).
  split; [reflexivity |]. split; [exact Hb |].
  exact (proj1 (chat_blank_message_rejected Sample.cfg Sample.friendly Sample.runner
                  Sample.the_token
                  (Sample.ask (" " +:+ nbsp +:+ nl +:+ nel
                               +:+ String (ascii_of_nat 9) EmptyString) (Some "s1"))
                  Sample.logged_in "student" eq_refl Hb)).
Defined.

(** * Further properties of the code *)

(** ** Strings *)

Lemma lstrip_nonspace a t :
  PyStr.is_space a = false -> PyStr.lstrip (String a t) = String a t.
Proof. intros Ha. cbn. by rewrite Ha. Qed.

Lemma rstrip_nonspace a t :
  PyStr.is_space a = false -> PyStr.rstrip (String a t) = String a (PyStr.rstrip t).
Proof. intros Ha. cbn. rewrite Ha. by destruct (PyStr.rstrip t). Qed.

Lemma rstrip_idempotent s : PyStr.rstrip (PyStr.rstrip s) = PyStr.rstrip s.
Proof.
  induction s as [| a t IH]; [done |]. cbn.
  destruct (PyStr.rstrip t) as [| b r] eqn:Hr.
  - destruct (PyStr.is_space a) eqn:Ha; [done |]. cbn. by rewrite Ha.
  - change (PyStr.rstrip (String a (String b r))) with
      (match PyStr.rstrip (String b r) with
       | EmptyString => if PyStr.is_space a then EmptyString else String a EmptyString
       | String c r' => String a (String c r')
       end).
    by rewrite IH.
Qed.

Lemma strip_idempotent s : PyStr.strip (PyStr.strip s) = PyStr.strip s.
Proof.
  unfold PyStr.strip.
  destruct (PyStr.lstrip s) as [| a t] eqn:Hl; [done |].
  pose proof (lstrip_head _ _ _ Hl) as Ha.
  rewrite (rstrip_nonspace a t Ha), (lstrip_nonspace _ _ Ha).
  rewrite <- (rstrip_nonspace a t Ha). apply rstrip_idempotent.
Qed.

(** A stripped string neither starts nor ends with whitespace. *)
Lemma strip_lstrip s : PyStr.lstrip (PyStr.strip s) = PyStr.strip s.
Proof.
  unfold PyStr.strip.
  destruct (PyStr.lstrip s) as [| a t] eqn:Hl; [done |].
  pose proof (lstrip_head _ _ _ Hl) as Ha.
  by rewrite (rstrip_nonspace a t Ha), (lstrip_nonspace _ _ Ha).
Qed.

Lemma strip_rstrip s : PyStr.rstrip (PyStr.strip s) = PyStr.strip s.
Proof. unfold PyStr.strip. apply rstrip_idempotent. Qed.

Lemma lower_ascii_idempotent a :
  PyStr.lower_ascii (PyStr.lower_ascii a) = PyStr.lower_ascii a.
Proof. destruct a as [[] [] [] [] [] [] [] []]; reflexivity. Qed.

Lemma lower_idempotent s : PyStr.lower (PyStr.lower s) = PyStr.lower s.
Proof.
  induction s as [| a t IH]; [done |]. cbn. by rewrite lower_ascii_idempotent, IH.
Qed.

Lemma append_cons a s t : String a s +:+ t = String a (s +:+ t).
Proof. reflexivity. Qed.

Lemma append_nil_l t : EmptyString +:+ t = t.
Proof. reflexivity. Qed.

Lemma lower_app s t : PyStr.lower (s +:+ t) = PyStr.lower s +:+ PyStr.lower t.
Proof.
  induction s as [| a s IH]; [done |].
  rewrite append_cons. cbn [PyStr.lower]. by rewrite append_cons, IH.
Qed.

Lemma prefix_app n post : String.prefix n (n +:+ post) = true.
Proof.
  induction n as [| a n IH].
  - rewrite append_nil_l. by destruct post.
  - rewrite append_cons. simpl. by destruct (ascii_dec a a).
Qed.

Lemma contains_prefix needle hay :
  String.prefix needle hay = true -> PyStr.contains needle hay = true.
Proof. intros H. destruct hay; cbn [PyStr.contains]; by rewrite H. Qed.

Lemma contains_app needle pre post :
  PyStr.contains needle (pre +:+ needle +:+ post) = true.
Proof.
  induction pre as [| a pre IH].
  - rewrite append_nil_l. apply contains_prefix, prefix_app.
  - rewrite append_cons. cbn [PyStr.contains]. rewrite IH. apply orb_true_r.
Qed.

Lemma append_length s t :
  String.length (s +:+ t) = (String.length s + String.length t)%nat.
Proof.
  induction s as [| a s IH]; [done |].
  rewrite append_cons. cbn [String.length]. by rewrite IH.
Qed.

Lemma append_inv_tail s t u : s +:+ u = t +:+ u -> s = t.
Proof.
  revert t. induction s as [| a s IH]; intros [| b t] H.
  - done.
  - apply (f_equal String.length) in H.
    rewrite append_nil_l, append_cons in H. cbn [String.length] in H.
    rewrite append_length in H. lia.
  - apply (f_equal String.length) in H.
    rewrite append_nil_l, append_cons in H. cbn [String.length] in H.
    rewrite append_length in H. lia.
  - rewrite !append_cons in H. injection H as -> H. f_equal. by apply IH.
Qed.

(** ** Messages and whitespace *)

(** X1. Whitespace around the message of a chat request changes nothing:
    the request with the stripped message has the same outcome, the same
    trace and the same dictionary. *)
Theorem chat_ignores_surrounding_whitespace cfg w runner tok m sid st :
  chat_endpoint cfg w runner tok {| message := PyStr.strip m; session_id := sid |} st
  = chat_endpoint cfg w runner tok {| message := m; session_id := sid |} st.
Proof.
  unfold chat_endpoint, chat. cbn [message session_id].
  by rewrite strip_idempotent.
Qed.

Lemma build_offline_reply_nonempty m : build_offline_reply m <> EmptyString.
Proof.
  unfold build_offline_reply.
  repeat match goal with |- context [if ?b then _ else _] => destruct b end;
    discriminate.
Qed.

Lemma answer_of_nonempty cfg m o :
  fst (answer_of cfg m o) <> EmptyString /\ snd (answer_of cfg m o) <> EmptyString.
Proof.
  unfold answer_of. destruct o as [[| a s] |]; cbn [PyStr.truthy_opt PyStr.truthy fst snd].
  - split; [apply build_offline_reply_nonempty | discriminate].
  - split; [discriminate | by rewrite append_cons].
  - split; [apply build_offline_reply_nonempty | discriminate].
Qed.

(** X2. No chat response has an empty reply or an empty source: an empty
    or missing agent reply is replaced by the offline reply, and the
    refusals are fixed non-empty texts. *)
Theorem chat_reply_never_empty cfg w runner tok payload st resp :
  fst (chat_endpoint cfg w runner tok payload st) = inr resp ->
  reply resp <> EmptyString /\ source resp <> EmptyString.
Proof.
  intros Hr.
  chat_ways cfg w runner tok payload st.
  all: simplify_eq; cbn [reply source].
  all: try (split; [by vm_compute | discriminate]).
  all: apply answer_of_nonempty.
Qed.

(** X2 at work: the agent answers with an empty string. *)
Lemma chat_reply_never_empty_witness :
  let out := chat_endpoint Sample.cfg Scenario.silent Sample.runner Sample.the_token
               (Sample.ask "hello" (Some "s1")) Sample.logged_in in
  let resp := {| reply := build_offline_reply "hello"; source := "rule-based";
                 monitored := true; resp_session_id := "s1" |} in
  fst out = inr resp /\ reply resp <> EmptyString.
Proof.
  split; [reflexivity |].
  exact (proj1 (chat_reply_never_empty Sample.cfg Scenario.silent Sample.runner
                  Sample.the_token (Sample.ask "hello" (Some "s1")) Sample.logged_in
                  _ eq_refl)).
Defined.

(** ** The agent call *)

(** X3. [invoke_agent] never fails because of the agent: without a runner,
    or when the runner's call raises, returns something that is not a
    dictionary, or returns no messages, it answers with the offline reply
    and the source ["rule-based"], records an empty output on the trace
    and leaves the dictionary alone. *)
Theorem invoke_agent_falls_back cfg w runner m sid sp st :
  (runner = None \/
   exists r, runner = Some r /\
     ((exists exc, agent_invoke w r (agent_messages sp m) = InvokeRaised exc) \/
      agent_invoke w r (agent_messages sp m) = InvokeNotDict \/
      agent_invoke w r (agent_messages sp m) = InvokeDict None \/
      agent_invoke w r (agent_messages sp m) = InvokeDict (Some []))) ->
  let out := invoke_agent cfg w runner m sid sp st in
  fst out = inr (build_offline_reply m, "rule-based") /\
  last (events_since st (snd out)) = Some (EvTraceOutput None) /\
  active_tokens (snd out) = active_tokens st.
Proof.
  intros H out. subst out.
  assert (Hrun : exists inv,
             runs (run_agent w runner m sp) (inr None) inv /\
             last (app inv [EvTraceOutput None]) = Some (EvTraceOutput None)).
  { unfold run_agent. fold (agent_messages sp m).
    destruct H as [-> | (r & -> & H)].
    - exists []. split; [apply runs_ret | reflexivity].
    - exists [EvAgentInvoke r (agent_messages sp m)]. split; [| reflexivity].
      eapply (runs_bind _ _ tt [_] _ []); [apply runs_emit |].
      destruct H as [[exc ->] | [-> | [-> | ->]]]; apply runs_ret. }
  destruct Hrun as (inv & Hrun & Hlast).
  assert (Hinv : runs (invoke_agent cfg w runner m sid sp)
                   (inr (build_offline_reply m, "rule-based"))
                   (app [EvTraceInput m sid] (app inv [EvTraceOutput None]))).
  { unfold invoke_agent.
    eapply runs_bind; [apply runs_emit |].
    eapply runs_bind; [exact Hrun |].
    eapply (runs_bind _ _ tt [_] _ []); [apply runs_emit |].
    cbn [PyStr.truthy_opt]. apply runs_ret. }
  rewrite Hinv. cbn [fst snd]. rewrite events_since_add_trace.
  split; [reflexivity |]. split; [| reflexivity].
  cbn [app]. destruct (app inv [EvTraceOutput None]) eqn:Happ; [discriminate Hlast |].
  exact Hlast.
Qed.

(** X3 at work: the agent call times out. *)
Lemma invoke_agent_falls_back_witness :
  let out := invoke_agent Sample.cfg Scenario.agent_down (Some Scenario.the_runner)
               "How do I deploy?" (Some "s1") (Some SYSTEM_PROMPT) init_state in
  fst out = inr (build_offline_reply "How do I deploy?", "rule-based").
Proof.
  refine (proj1 (invoke_agent_falls_back Sample.cfg Scenario.agent_down
                   (Some Scenario.the_runner) "How do I deploy?" (Some "s1")
                   (Some SYSTEM_PROMPT) init_state _)).
  right. exists Scenario.the_runner. split; [reflexivity |].
  left. exists "timeout". reflexivity.
Defined.

(** X4. When the runner returns a dictionary with messages, [run_agent]
    calls it once, with the system prompt and the user's message, and
    gives the text of the last message only: the earlier messages do not
    matter. *)
Theorem run_agent_reads_last_message w r m sp earlier lm st :
  agent_invoke w r (agent_messages sp m) = InvokeDict (Some (app earlier [lm])) ->
  run_agent w (Some r) m sp st
  = (inr (_content_to_text (message_content lm)),
     add_trace st [EvAgentInvoke r (agent_messages sp m)]).
Proof.
  intros H. unfold run_agent. fold (agent_messages sp m).
  unfold bind, emit, ret. cbv beta iota. rewrite H.
  unfold default. cbn [from_option id].
  rewrite last_snoc. reflexivity.
Qed.

(** X4 at work: a tool message, then the answer in two parts. *)
Lemma run_agent_reads_last_message_witness :
  fst (run_agent Scenario.chatty (Some Scenario.the_runner) "How do I start it?"
         (Some SYSTEM_PROMPT) init_state)
  = inr (Some ("Run " +:+ nl +:+ "uvicorn main:app")).
Proof.
  exact (f_equal fst
           (run_agent_reads_last_message Scenario.chatty Scenario.the_runner
              "How do I start it?" (Some SYSTEM_PROMPT)
              [Bare (CStr "searching")]
              (WithContent (CList [IStr " Run "; IDict (Some "uvicorn main:app ")]))
              init_state eq_refl)).
Defined.

(** X5. For a content that is a list of parts, [_content_to_text] gives
    nothing exactly when no part is a string or a dictionary with a text,
    and otherwise a text without whitespace at either end. *)
Theorem content_to_text_of_list items :
  (_content_to_text (CList items) = None <->
   Forall (fun i => item_chunk i = None) items) /\
  (forall t, _content_to_text (CList items) = Some t ->
     PyStr.strip t = t /\ PyStr.lstrip t = t /\ PyStr.rstrip t = t).
Proof.
  cbn [_content_to_text]. split.
  - split.
    + intros H. destruct (omap item_chunk items) as [| c cs] eqn:Hc; [| discriminate H].
      clear H. induction items as [| i items IH]; [constructor |].
      cbn in Hc. destruct (item_chunk i) eqn:Hi; [discriminate Hc |].
      constructor; [exact Hi | by apply IH].
    + intros H. replace (omap item_chunk items) with (@nil string); [done |].
      induction H as [| i items Hi _ IH]; [done |]. cbn. by rewrite Hi.
  - intros t H. destruct (omap item_chunk items) as [| c cs]; [discriminate H |].
    injection H as <-.
    split; [apply strip_idempotent |]. split; [apply strip_lstrip | apply strip_rstrip].
Qed.

(** ** The offline replies *)

(** X6. A message that mentions Streamlit, in any mix of upper and lower
    case and anywhere in the text, gets the Streamlit tip, whatever else
    it mentions: the first keyword tested wins. *)
Theorem offline_reply_streamlit_first pre k post :
  PyStr.lower k = "streamlit" ->
  build_offline_reply (pre +:+ k +:+ post)
  = "Streamlit reruns your script after every click. Keep anything you need in st.session_state.".
Proof.
  intros Hk. unfold build_offline_reply.
  rewrite !lower_app, Hk, contains_app. reflexivity.
Qed.

(** X6 at work: the message also asks about FastAPI and deployment. *)
Lemma offline_reply_streamlit_first_witness :
  build_offline_reply ("Deploy FastAPI behind " +:+ "StreamLit" +:+ "?")
  = "Streamlit reruns your script after every click. Keep anything you need in st.session_state.".
Proof.
  exact (offline_reply_streamlit_first "Deploy FastAPI behind " "StreamLit" "?" eq_refl).
Defined.

(** X7. The offline reply does not depend on the letter case of the
    message. *)
Theorem offline_reply_ignores_case m :
  build_offline_reply (PyStr.lower m) = build_offline_reply m.
Proof. unfold build_offline_reply. by rewrite lower_idempotent. Qed.

(** ** Login *)

Lemma truthy_opt_some o :
  PyStr.truthy_opt o = true -> exists s, o = Some s /\ PyStr.truthy s = true.
Proof. destruct o as [s|]; [eauto | discriminate]. Qed.

(** X8. A login succeeds exactly when both server credentials are
    configured and non-empty and the request repeats them; it then returns
    the token [token-<uuid>-<username>] and stores it.  Otherwise it
    raises 500 (credentials not configured, whatever the request says) or
    401 (wrong user name or password), and the state is left as it was:
    no token is issued. *)
Theorem login_succeeds_iff cfg w c st :
  let out := login cfg w c st in
  ((exists resp, fst out = inr resp) <->
   PyStr.truthy (username c) = true /\ PyStr.truthy (password c) = true /\
   AGENT_API_USERNAME cfg = Some (username c) /\
   AGENT_API_PASSWORD cfg = Some (password c)) /\
  (forall resp, fst out = inr resp ->
     token resp = create_token (uuid4 w) (username c) /\
     active_tokens (snd out) !! token resp = Some (username c) /\
     trace (snd out) = trace st) /\
  (forall e, fst out = inl e ->
     snd out = st /\
     (e = HTTPException 500 "Server credentials are not configured" <->
      PyStr.truthy_opt (AGENT_API_USERNAME cfg) = false \/
      PyStr.truthy_opt (AGENT_API_PASSWORD cfg) = false) /\
     (e = HTTPException 500 "Server credentials are not configured" \/
      e = HTTPException 401 "Invalid username or password")).
Proof.
  intros out. subst out. unfold login.
  destruct (PyStr.truthy_opt (AGENT_API_USERNAME cfg)) eqn:Hu;
    [destruct (PyStr.truthy_opt (AGENT_API_PASSWORD cfg)) eqn:Hp |]; cbn [negb orb].
  - apply truthy_opt_some in Hu as (cu & Hcu & Htu).
    apply truthy_opt_some in Hp as (cp & Hcp & Htp).
    rewrite Hcu, Hcp.
    case_bool_decide as Hcu'; [case_bool_decide as Hcp' |]; cbn [negb orb].
    + injection Hcu' as ->. injection Hcp' as ->.
      unfold bind, save_token, set_token, ret. cbn [fst snd token active_tokens trace].
      split; [split; [by intros _ | intros _; by eexists] |].
      split; [intros resp [= <-]; cbn [token]; by rewrite lookup_insert_eq |].
      intros e [=].
    + unfold raise. cbn [fst snd].
      split; [split; [intros [resp [=]] | intros (_ & _ & _ & [= ->]); congruence] |].
      split; [intros resp [=] |].
      intros e [= <-]. split; [done |].
      split; [split; [intros [=] | intros [[=] | [=]]] | by right].
    + unfold raise. cbn [fst snd].
      split; [split; [intros [resp [=]] | intros (_ & _ & [= ->] & _); congruence] |].
      split; [intros resp [=] |].
      intros e [= <-]. split; [done |].
      split; [split; [intros [=] | intros [[=] | [=]]] | by right].
  - unfold raise. cbn [fst snd].
    split; [split; [intros [resp [=]] | intros (_ & Htp & _ & Hcp)] |].
    { rewrite Hcp in Hp. cbn in Hp. congruence. }
    split; [intros resp [=] |].
    intros e [= <-]. split; [done |]. split; [split; [by right | done] | by left].
  - unfold raise. cbn [fst snd].
    split; [split; [intros [resp [=]] | intros (Htu & _ & Hcu & _)] |].
    { rewrite Hcu in Hu. cbn in Hu. congruence. }
    split; [intros resp [=] |].
    intros e [= <-]. split; [done |]. split; [split; [by left | done] | by left].
Qed.

(** ** Tokens over the life of the process *)

Lemma serve_all_app cfg runner l1 l2 st :
  serve_all cfg runner (app l1 l2) st = serve_all cfg runner l2 (serve_all cfg runner l1 st).
Proof.
  revert st. induction l1 as [| [w r] l1 IH]; intros st; [done |].
  cbn [app serve_all]. apply IH.
Qed.

Lemma serve_tokens cfg runner w r st :
  active_tokens (serve cfg runner w r st) = active_tokens st \/
  exists c, r = ReqLogin c /\
    PyStr.truthy (username c) = true /\
    AGENT_API_USERNAME cfg = Some (username c) /\
    AGENT_API_PASSWORD cfg = Some (password c) /\
    active_tokens (serve cfg runner w r st)
    = <[create_token (uuid4 w) (username c) := username c]> (active_tokens st).
Proof.
  destruct r as [|c|t|t p]; cbn [serve].
  - by left.
  - destruct (login_run cfg w c st) as [-> | [-> | (Ht & Hu & Hp & ->)]];
      [by left | by left |].
    right. exists c. rewrite Hu in Ht. by repeat split.
  - left. apply verify_token_tokens.
  - left. apply chat_endpoint_tokens.
Qed.

Lemma login_ok cfg w c st :
  PyStr.truthy (username c) = true -> PyStr.truthy (password c) = true ->
  AGENT_API_USERNAME cfg = Some (username c) ->
  AGENT_API_PASSWORD cfg = Some (password c) ->
  active_tokens (snd (login cfg w c st))
  = <[create_token (uuid4 w) (username c) := username c]> (active_tokens st).
Proof.
  intros Htu Htp Hu Hp. unfold login. rewrite Hu, Hp.
  cbn [PyStr.truthy_opt]. rewrite Htu, Htp. cbn [negb orb].
  rewrite !bool_decide_eq_true_2 by done. reflexivity.
Qed.

(** Where the entries of the dictionary come from. *)
Lemma tokens_issued cfg runner reqs st t u :
  active_tokens (serve_all cfg runner reqs st) !! t = Some u ->
  active_tokens st !! t = Some u \/
  exists w c, In (w, ReqLogin c) reqs /\
    t = create_token (uuid4 w) (username c) /\ u = username c /\
    PyStr.truthy u = true /\
    AGENT_API_USERNAME cfg = Some (username c) /\
    AGENT_API_PASSWORD cfg = Some (password c).
Proof.
  revert st. induction reqs as [| [w r] rest IH]; intros st Hl; [by left |].
  cbn [serve_all] in Hl. apply IH in Hl as [Hl | (w' & c & Hin & H)].
  - destruct (serve_tokens cfg runner w r st) as [Heq | (c & -> & Ht & Hu & Hp & Heq)];
      rewrite Heq in Hl; [by left |].
    rewrite lookup_insert in Hl. case_decide as Hk; [| by left].
    injection Hl as <-. right. exists w, c.
    split; [by left |]. by repeat split.
  - right. exists w', c. split; [by right | exact H].
Qed.

(** X9. No forged token is ever accepted: in a running process, a token
    that [verify_token] accepts was issued by a successful login earlier in
    the run, it has the form [token-<uuid>-<username>] for the value of
    [uuid4()] drawn at that login, and the user name returned is the one
    that logged in, the configured one. *)
Theorem verify_token_only_issued cfg runner reqs t u :
  fst (verify_token t (serve_all cfg runner reqs init_state)) = inr u ->
  exists w c, In (w, ReqLogin c) reqs /\
    t = create_token (uuid4 w) (username c) /\ u = username c /\
    AGENT_API_USERNAME cfg = Some u /\
    AGENT_API_PASSWORD cfg = Some (password c).
Proof.
  intros H. rewrite verify_token_run in H. cbn [fst] in H.
  destruct (active_tokens (serve_all cfg runner reqs init_state) !! t) as [u'|] eqn:Hl;
    [| discriminate H].
  destruct (PyStr.truthy u'); [| discriminate H]. injection H as ->.
  apply tokens_issued in Hl as [Hl | (w & c & Hin & -> & -> & _ & Hu & Hp)].
  - cbn in Hl. by rewrite lookup_empty in Hl.
  - by exists w, c.
Qed.

(** X9 at work on a health probe, a login and a chat. *)
Lemma verify_token_only_issued_witness :
  fst (verify_token Sample.the_token
         (serve_all Sample.cfg Sample.runner Scenario.morning init_state)) = inr "student" /\
  exists w c, In (w, ReqLogin c) Scenario.morning /\
    Sample.the_token = create_token (uuid4 w) (username c) /\ "student" = username c /\
    AGENT_API_USERNAME Sample.cfg = Some "student" /\
    AGENT_API_PASSWORD Sample.cfg = Some (password c).
Proof.
  split; [reflexivity |].
  exact (verify_token_only_issued Sample.cfg Sample.runner Scenario.morning
           Sample.the_token "student" eq_refl).
Defined.

(** X10. A token stays valid: once a login with the configured, non-empty
    credentials has been served, its token verifies as that user after
    every later request of the run, logins with the same [uuid4()] value
    included. *)
Theorem issued_token_stays_valid cfg runner reqs w c :
  In (w, ReqLogin c) reqs ->
  PyStr.truthy (username c) = true -> PyStr.truthy (password c) = true ->
  AGENT_API_USERNAME cfg = Some (username c) ->
  AGENT_API_PASSWORD cfg = Some (password c) ->
  fst (verify_token (create_token (uuid4 w) (username c))
         (serve_all cfg runner reqs init_state))
  = inr (username c).
Proof.
  intros Hin Htu Htp Hu Hp.
  apply in_split in Hin as (before & after & ->).
  rewrite serve_all_app. cbn [serve_all serve].
  set (st1 := serve_all cfg runner before init_state).
  assert (Hinv1 : issued_to_user cfg (active_tokens st1)).
  { apply serve_all_issued. intros t u Ht. cbn in Ht. by rewrite lookup_empty in Ht. }
  set (st2 := snd (login cfg w c st1)).
  assert (Hl2 : active_tokens st2 !! create_token (uuid4 w) (username c)
                = Some (username c)).
  { subst st2. rewrite login_ok by done. apply lookup_insert_eq. }
  assert (Hinv2 : issued_to_user cfg (active_tokens st2)).
  { apply (serve_keeps cfg runner w (ReqLogin c) st1 Hinv1). }
  pose proof (serve_all_keeps cfg runner after st2 Hinv2) as Hsub.
  rewrite map_subseteq_spec in Hsub. apply Hsub in Hl2.
  rewrite verify_token_run. cbn [fst]. by rewrite Hl2, Htu.
Qed.

(** X10 at work: the token of the morning's login, after the chat. *)
Lemma issued_token_stays_valid_witness :
  fst (verify_token (create_token (uuid4 Sample.friendly) "student")
         (serve_all Sample.cfg Sample.runner Scenario.morning init_state))
  = inr "student".
Proof.
  refine (issued_token_stays_valid Sample.cfg Sample.runner Scenario.morning
            Sample.friendly Scenario.student _ eq_refl eq_refl eq_refl eq_refl).
  right. left. reflexivity.
Defined.

(** X11. In a running process no entry of the dictionary has an empty user
    name, so [verify_token] accepts a token exactly when the dictionary
    has it, and returns the user name stored with it. *)
Theorem verify_token_iff_stored cfg runner reqs t u :
  let st := serve_all cfg runner reqs init_state in
  fst (verify_token t st) = inr u <-> active_tokens st !! t = Some u.
Proof.
  intros st. subst st. rewrite verify_token_run. cbn [fst]. split.
  - destruct (active_tokens (serve_all cfg runner reqs init_state) !! t) as [u'|];
      [| discriminate].
    destruct (PyStr.truthy u'); [| discriminate]. by intros [= ->].
  - intros Hl. rewrite Hl.
    apply tokens_issued in Hl as [Hl | (w & c & _ & _ & _ & -> & _)]; [| done].
    cbn in Hl. by rewrite lookup_empty in Hl.
Qed.

(** X12. For one user name, different values of [uuid4()] give different
    tokens. *)
Theorem create_token_injective uuid1 uuid2 name :
  uuid1 <> uuid2 -> create_token uuid1 name <> create_token uuid2 name.
Proof.
  unfold create_token. intros Hne H. apply Hne.
  rewrite !append_cons, !append_nil_l in H.
  injection H as H. by apply append_inv_tail in H.
Qed.

(** X12 at work on two draws. *)
Lemma create_token_injective_witness :
  create_token (uuid4 Sample.friendly) "student"
  <> create_token (uuid4 Scenario.chatty) "student".
Proof.
  apply (create_token_injective (uuid4 Sample.friendly) (uuid4 Scenario.chatty) "student").
  discriminate.
Defined.

(** ** Requests without a valid token *)

(** X13. A chat request whose token does not verify is refused with 401
    before anything else happens: no outside service is consulted, so the
    outcome is the same in every world, for every payload and with or
    without an agent. *)
Theorem chat_unauthenticated_touches_nothing cfg w runner tok payload st e :
  fst (verify_token tok st) = inl e ->
  chat_endpoint cfg w runner tok payload st
  = (inl (HTTPException 401 "Missing or invalid authentication token"),
     add_trace st [EvVerifyToken tok]).
Proof.
  intros H. unfold chat_endpoint, bind. rewrite verify_token_run in *. cbn [fst] in H.
  destruct (active_tokens st !! tok) as [u|]; [| reflexivity].
  destruct (PyStr.truthy u); [discriminate H | reflexivity].
Qed.

(** X13 at work on a forged token. *)
Lemma chat_unauthenticated_touches_nothing_witness :
  chat_endpoint Sample.cfg Scenario.chatty Sample.runner "token-forged-student"
    (Sample.ask "How do I deploy FastAPI?" (Some "s1")) Sample.logged_in
  = (inl (HTTPException 401 "Missing or invalid authentication token"),
     add_trace Sample.logged_in [EvVerifyToken "token-forged-student"]).
Proof.
  exact (chat_unauthenticated_touches_nothing Sample.cfg Scenario.chatty Sample.runner
           "token-forged-student" (Sample.ask "How do I deploy FastAPI?" (Some "s1"))
           Sample.logged_in _ eq_refl).
Defined.

(** ** Building the agent *)

(** X14. [build_agent_runner] never raises.  It returns an agent exactly
    when the OpenAI key is set and non-empty, the three imported names are
    there, and both constructors return; the agent is then made of a
    [ChatOpenAI] with the configured model, temperature 0 and that key.
    Without a key no constructor is called at all. *)
Theorem build_agent_runner_cases cfg w imports st :
  let out := build_agent_runner cfg w imports st in
  let llm := {| llm_model := OPENAI_MODEL cfg; llm_temperature := 0;
                llm_api_key := default "" (OPENAI_API_KEY cfg) |} in
  let built :=
    PyStr.truthy_opt (OPENAI_API_KEY cfg) && has_create_react_agent imports
    && has_ChatOpenAI imports && has_tool imports
    && ChatOpenAI_ok w llm && create_react_agent_ok w llm [tavily_search_tool] in
  fst out = inr (if built
                 then Some {| runner_llm := llm; runner_tools := [tavily_search_tool] |}
                 else None) /\
  active_tokens (snd out) = active_tokens st /\
  (PyStr.truthy_opt (OPENAI_API_KEY cfg) = false -> snd out = st) /\
  (forall r, fst out = inr (Some r) ->
     PyStr.truthy (llm_api_key (runner_llm r)) = true /\
     OPENAI_API_KEY cfg = Some (llm_api_key (runner_llm r)) /\
     llm_model (runner_llm r) = OPENAI_MODEL cfg /\
     llm_temperature (runner_llm r) = 0).
Proof.
  intros out llm built. subst out built.
  unfold build_agent_runner, build_tools. fold llm.
  destruct (PyStr.truthy_opt (OPENAI_API_KEY cfg)) eqn:Hk;
    [apply truthy_opt_some in Hk as (key & Hkey & Htk) |];
    destruct (has_create_react_agent imports), (has_ChatOpenAI imports),
      (has_tool imports); cbn [andb negb];
    try (repeat split; (discriminate || (intros; discriminate))).
  destruct (ChatOpenAI_ok w llm); cbn [andb negb];
    [| repeat split; (discriminate || (intros; discriminate))].
  unfold bind, emit, ret.
  destruct (create_react_agent_ok w llm [tavily_search_tool]); cbn [fst snd active_tokens];
    [| repeat split; (discriminate || (intros; discriminate))].
  split; [reflexivity |]. split; [reflexivity |]. split; [discriminate |].
  intros r [= <-]. subst llm. cbn [runner_llm llm_api_key llm_model llm_temperature].
  rewrite Hkey. by repeat split.
Qed.

(** ** The search tool *)

(** X15. The search tool reports the first three results only: two
    searches whose results agree on their first three items give the same
    text, however many more there are. *)
Theorem tavily_search_first_three cfg w w' query l l' :
  tavily_client_search w query = SearchResults (Some l) ->
  tavily_client_search w' query = SearchResults (Some l') ->
  take 3 l = take 3 l' ->
  tavily_search cfg w query = tavily_search cfg w' query.
Proof.
  intros H H' Ht. unfold tavily_search. rewrite H, H'.
  unfold default. cbn [from_option id]. by rewrite Ht.
Qed.

(** X15 at work: four results against their first three. *)
Lemma tavily_search_first_three_witness :
  tavily_search Sample.cfg Scenario.chatty "rocq"
  = tavily_search Sample.cfg Scenario.chatty_three "rocq" /\
  tavily_search Sample.cfg Scenario.chatty "rocq"
  = "Tavily search results:" +:+ nl +:+ "- A: a.org" +:+ nl +:+ "- : b.org" +:+ nl +:+ "- C: ".
Proof.
  split; [| reflexivity].
  exact (tavily_search_first_three Sample.cfg Scenario.chatty Scenario.chatty_three
           "rocq" _ _ eq_refl eq_refl eq_refl).
Defined.

(** ** Answers *)

(** X17. What a response passes on has been checked: a response whose
    source is not a guardrail carries a reply on which the reading-time
    validator returned, to a message on which the topic validator
    returned. *)
Theorem returned_reply_was_validated cfg w runner tok payload st resp :
  let out := chat_endpoint cfg w runner tok payload st in
  let evs := events_since st (snd out) in
  fst out = inr resp ->
  source resp <> "guardrail:topic" ->
  source resp <> "guardrail:reading_time" ->
  In (EvGuard RestrictToTopic (PyStr.strip (message payload)) true) evs /\
  In (EvGuard ReadingTime (reply resp) true) evs /\
  guard_validate w RestrictToTopic (PyStr.strip (message payload)) = true /\
  guard_validate w ReadingTime (reply resp) = true.
Proof.
  intros out evs Hr Ht Hl. subst out evs.
  chat_ways cfg w runner tok payload st; simplify_eq; cbn [source reply] in *;
    try congruence.
  all: repeat split; try assumption; cbn; tauto.
Qed.

(** X17 at work on the agent's answer. *)
Lemma returned_reply_was_validated_witness :
  guard_validate Sample.friendly ReadingTime "Use uvicorn." = true.
Proof.
  exact (proj2 (proj2 (proj2
           (returned_reply_was_validated Sample.cfg Sample.friendly Sample.runner
              Sample.the_token
              (Sample.ask "  How do I deploy FastAPI? " (Some "s1")) Sample.logged_in
              {| reply := "Use uvicorn."; source := "langgraph:gpt-4o-mini";
                 monitored := true; resp_session_id := "s1" |}
              eq_refl ltac:(discriminate) ltac:(discriminate))))).
Defined.

(** X18. A login makes no other token valid and no other token invalid:
    every token but the one it issues verifies after the login as it did
    before, from any state. *)
Theorem login_leaves_other_tokens cfg w c st t :
  t <> create_token (uuid4 w) (username c) ->
  fst (verify_token t (snd (login cfg w c st))) = fst (verify_token t st).
Proof.
  intros Hne. rewrite !verify_token_run. cbn [fst].
  destruct (login_tokens cfg w c st) as [-> | [_ ->]]; [done |].
  by rewrite lookup_insert_ne.
Qed.

(** X18 at work: a forged token stays refused after a login. *)
Lemma login_leaves_other_tokens_witness :
  fst (verify_token "token-forged-student"
         (snd (login Sample.cfg Sample.friendly Scenario.student init_state)))
  = inl (HTTPException 401 "Missing or invalid authentication token").
Proof.
  exact (login_leaves_other_tokens Sample.cfg Sample.friendly Scenario.student
           init_state "token-forged-student" ltac:(discriminate)).
Defined.
